(** * Count-Min Sketch notebook: a shallow embedding and its verification

    Source: [mincountsketch.ipynb] (classes [CountMinSketch],
    [BinaryClassification], [classifier]).

    Modelling conventions.
    - Python exceptions are values of [exn]; a call returns an [outcome].
      Methods that mutate [self] are computations of the state-and-exception
      monad [py]: the state survives a raise, as the object does in Python.
    - [np.zeros] allocates float64 cells. A cell only ever holds an integer
      count and is modelled as a [Z]; the [+= 1] of [add] is exact as long as
      the count stays below 2^53. The products and the row sums of
      [_dotProduct] leave that range for counts a sketch can reach, so they
      are rounded to the nearest float64, ties to even ([Np.round64]), and the
      sums are taken in the order of numpy's pairwise summation
      ([Np.add_reduce]).
    - [mmh3.hash] belongs to the third-party package [mmh3]; the sketch is
      verified for an arbitrary total function of the token bytes and the
      seed. [Mmh3.hash] is the MurmurHash3 x86_32 routine the package
      implements and is used to run the model on concrete tokens. *)

From Stdlib Require Import ZArith Lia Strings.Byte.
From Stdlib.Floats Require Import SpecFloat.
From stdpp Require Import base list strings countable gmap.

Local Open Scope Z_scope.

(** ** Python values, exceptions and the effect monad *)

Module Py.

Inductive exn : Set :=
| NameError
| TypeError
| ValueError
| IndexError
| ZeroDivisionError.

Inductive outcome (A : Type) : Type :=
| Ok (a : A)
| Raise (e : exn).
Arguments Ok {A} a.
Arguments Raise {A} e.

Definition obind {A B} (m : outcome A) (f : A -> outcome B) : outcome B :=
  match m with
  | Ok a => f a
  | Raise e => Raise e
  end.

(** A method body: reads and writes the object it is called on. *)
Definition py (S A : Type) : Type := S -> outcome A * S.

Definition ret {S A} (a : A) : py S A := fun s => (Ok a, s).

Definition bind {S A B} (m : py S A) (f : A -> py S B) : py S B :=
  fun s =>
    match m s with
    | (Ok a, s') => f a s'
    | (Raise e, s') => (Raise e, s')
    end.

Definition lift {S A} (o : outcome A) : py S A := fun s => (o, s).

Definition get_self {S} : py S S := fun s => (Ok s, s).

Definition put_self {S} (s' : S) : py S unit := fun _ => (Ok tt, s').

(** [for x in xs: body(x)] *)
Fixpoint for_each {S B} (xs : list B) (body : B -> py S unit) : py S unit :=
  match xs with
  | [] => ret tt
  | x :: xs' => bind (body x) (fun _ => for_each xs' body)
  end.

(** Arguments a caller may pass where the code expects a number: an int,
    or a float given by its IEEE 754 binary64 decomposition. *)
Inductive pyarg : Set :=
| PyInt (z : Z)
| PyFloat (x : spec_float).

(** Values a method hands back. *)
Inductive pyval : Set :=
| PyNone
| PyNum (z : Z).

(** [range(lo, hi)] *)
Definition range (lo hi : Z) : list Z := seqZ lo (hi - lo).

(** [a % n] on ints: floored remainder, [ZeroDivisionError] for [n = 0]. *)
Definition mod_ (a n : Z) : outcome Z :=
  if n =? 0 then Raise ZeroDivisionError else Ok (a mod n).

(** Index normalisation shared by lists and arrays: [-len <= i < len],
    negative indices count from the end. *)
Definition norm_index (len : nat) (i : Z) : outcome nat :=
  if (0 <=? i) && (i <? Z.of_nat len) then Ok (Z.to_nat i)
  else if (- Z.of_nat len <=? i) && (i <? 0) then Ok (Z.to_nat (i + Z.of_nat len))
  else Raise IndexError.

(** [l[i]] on a Python list. *)
Definition list_getitem {A} (l : list A) (i : Z) : outcome A :=
  obind (norm_index (length l) i) (fun i' =>
    match l !! i' with
    | Some x => Ok x
    | None => Raise IndexError
    end).

(** [[f(x) for x in xs]]: the first call that raises ends the
    comprehension. *)
Fixpoint list_comp {A B} (f : A -> outcome B) (xs : list A) : outcome (list B) :=
  match xs with
  | [] => Ok []
  | x :: xs' =>
      match f x with
      | Raise e => Raise e
      | Ok y =>
          match list_comp f xs' with
          | Raise e => Raise e
          | Ok ys => Ok (y :: ys)
          end
      end
  end.

End Py.
Import Py.

Declare Scope py_scope.
Delimit Scope py_scope with py.
Notation "x <- m ;; k" := (bind m (fun x => k))
  (at level 100, m at next level, right associativity) : py_scope.
Notation "m ;;; k" := (bind m (fun _ => k))
  (at level 100, right associativity) : py_scope.
Notation "x <~ m ;; k" := (obind m (fun x => k))
  (at level 100, m at next level, right associativity) : py_scope.

(** ** The part of numpy the notebook uses: two-dimensional arrays *)

Module Np.

Record ndarray : Type := Array {
  nrows : nat;
  ncols : nat;
  data : list (list Z)
}.

(** Row-major storage agrees with the shape. *)
Definition wf (a : ndarray) : Prop :=
  length (data a) = nrows a /\ Forall (fun r => length r = ncols a) (data a).

(** Raw cell read, [0] outside the storage. *)
Definition cell (a : ndarray) (i k : nat) : Z :=
  default 0 (data a !! i ≫= fun r => r !! k).

(** Cell-wise comparison of two arrays, and cell-wise non-negativity. *)
Definition cells_le (a b : ndarray) : Prop :=
  forall i k, cell a i k <= cell b i k.

Definition cells_nonneg (a : ndarray) : Prop :=
  forall i k, 0 <= cell a i k.

(** [np.zeros((r, c))] *)
Definition zeros (shape : pyarg * pyarg) : outcome ndarray :=
  match shape with
  | (PyInt r, PyInt c) =>
      if (r <? 0) || (c <? 0) then Raise ValueError
      else Ok (Array (Z.to_nat r) (Z.to_nat c)
                 (replicate (Z.to_nat r) (replicate (Z.to_nat c) 0)))
  | _ => Raise TypeError
  end.

(** [np.arange(stop).tolist()] for an int [stop]. *)
Definition arange (stop : Z) : list Z := range 0 stop.

(** What [np.arange(stop)] checks of its argument: a float that is nan or
    infinite has no length and is refused with [ValueError]; an int, or a
    finite float, passes. *)
Definition arange_check (stop : pyarg) : outcome unit :=
  match stop with
  | PyFloat S754_nan | PyFloat (S754_infinity _) => Raise ValueError
  | _ => Ok tt
  end.

(** A float below [2^63] in magnitude: as a length or a dimension it fits a
    machine index. Larger numbers, and arrays too large for the memory, are
    outside what the model distinguishes. *)
Definition fits_intp (x : spec_float) : bool :=
  match x with
  | S754_zero _ => true
  | S754_finite _ m e =>
      if 0 <=? e then Z.pos m * 2 ^ e <? 2 ^ 63
      else Z.pos m <? 2 ^ 63 * 2 ^ (- e)
  | _ => false
  end.

(** [a[i, k]] *)
Definition getitem (a : ndarray) (i k : Z) : outcome Z :=
  (i' <~ norm_index (nrows a) i ;;
   k' <~ norm_index (ncols a) k ;;
   Ok (cell a i' k'))%py.

(** [a[i, k] = v] *)
Definition setitem (a : ndarray) (i k : Z) (v : Z) : outcome ndarray :=
  (i' <~ norm_index (nrows a) i ;;
   k' <~ norm_index (ncols a) k ;;
   Ok (Array (nrows a) (ncols a) (alter (fun r => <[k' := v]> r) i' (data a))))%py.

(** The array after [a[i, k] += 1] at a normalised index. *)
Definition bumped (a : ndarray) (i k : nat) : ndarray :=
  Array (nrows a) (ncols a)
    (alter (fun row => <[k := cell a i k + 1]> row) i (data a)).

(** One axis of numpy's broadcasting rule. *)
Definition broadcast_dim (m n : nat) : option nat :=
  if (m =? n)%nat then Some m
  else if (m =? 1)%nat then Some n
  else if (n =? 1)%nat then Some m
  else None.

(** The source index a broadcast index reads from. *)
Definition bidx (len i : nat) : nat := if (len =? 1)%nat then 0%nat else i.

(** *** float64 arithmetic on integer values

    A cell is a float64 that holds an integer. [round64 x] is the float64
    nearest to the integer [x], ties to even: every integer up to 2^53 in
    magnitude is a float64; above, 53 significant bits are kept. (Values stay
    far below 2^1024, where float64 overflows.) *)
Definition round64 (x : Z) : Z :=
  let a := Z.abs x in
  if a <=? 2 ^ 53 then x
  else
    let e := Z.log2 a - 52 in
    let q := a / 2 ^ e in
    let r := a mod 2 ^ e in
    let half := 2 ^ (e - 1) in
    let q' := if (half <? r) || ((r =? half) && Z.odd q) then q + 1 else q in
    Z.sgn x * (q' * 2 ^ e).

(** float64 [a * b] and [a + b]. *)
Definition fmul (a b : Z) : Z := round64 (a * b).
Definition fadd (a b : Z) : Z := round64 (a + b).

(** *** The order in which numpy adds up a row

    [add.reduce] over a contiguous row is numpy's pairwise summation: fewer
    than 8 numbers are added left to right; up to 128 are added in 8
    interleaved accumulators that are then combined as a balanced tree, the
    leftover numbers being added last; a longer row is split in two (the
    first part a multiple of 8 long) and the two sums are added. *)
Definition sum_loop (res : Z) (l : list Z) : Z := foldl fadd res l.

Fixpoint accumulate (blocks : nat) (r l : list Z) : list Z * list Z :=
  match blocks with
  | O => (r, l)
  | S blocks' => accumulate blocks' (zip_with fadd r (take 8 l)) (drop 8 l)
  end.

Definition combine8 (r : list Z) : Z :=
  match r with
  | [r0; r1; r2; r3; r4; r5; r6; r7] =>
      fadd (fadd (fadd r0 r1) (fadd r2 r3)) (fadd (fadd r4 r5) (fadd r6 r7))
  | _ => 0
  end.

(** A block of 8 to 128 numbers. *)
Definition sum_block (l : list Z) : Z :=
  let '(r, rest) := accumulate (length l / 8 - 1) (take 8 l) (drop 8 l) in
  sum_loop (combine8 r) rest.

(** [fuel] bounds the depth of the splitting; the length of the row is
    always enough. *)
Fixpoint pairwise_sum (fuel : nat) (l : list Z) : Z :=
  let n := length l in
  if (n <? 8)%nat then sum_loop 0 l
  else if (n <=? 128)%nat then sum_block l
  else
    match fuel with
    | O => sum_block l
    | S fuel' =>
        let n2 := (n / 2 - (n / 2) mod 8)%nat in
        fadd (pairwise_sum fuel' (take n2 l)) (pairwise_sum fuel' (drop n2 l))
    end.

(** The sum of one row: the reduction starts from the identity [0]. *)
Definition add_reduce (row : list Z) : Z :=
  fadd 0 (pairwise_sum (length row) row).

(** [a * b], elementwise with broadcasting. *)
Definition mul (a b : ndarray) : outcome ndarray :=
  match broadcast_dim (nrows a) (nrows b), broadcast_dim (ncols a) (ncols b) with
  | Some r, Some c =>
      Ok (Array r c
            ((fun i =>
                (fun k => fmul (cell a (bidx (nrows a) i) (bidx (ncols a) k))
                               (cell b (bidx (nrows b) i) (bidx (ncols b) k)))
                <$> seq 0 c)
             <$> seq 0 r))
  | _, _ => Raise ValueError
  end.

(** [a.sum(axis=1)]: one sum per row. *)
Definition sum_axis1 (a : ndarray) : list Z :=
  add_reduce <$> data a.

(** [v.min()]: numpy refuses to reduce an empty array. *)
Definition min (v : list Z) : outcome Z :=
  match v with
  | [] => Raise ValueError
  | x :: v' => Ok (foldl Z.min x v')
  end.

(** The scan of [np.argmax]: the index of the first occurrence of the
    largest value, [best] at [besti] being the largest so far and [i] the
    index of the head of [v]. *)
Fixpoint argmax_from (best : Z) (besti i : nat) (v : list Z) : nat :=
  match v with
  | [] => besti
  | x :: v' =>
      if best <? x then argmax_from x i (S i) v'
      else argmax_from best besti (S i) v'
  end.

(** [np.argmax(v)] on a list of numbers: numpy refuses an empty sequence. *)
Definition argmax (v : list Z) : outcome Z :=
  match v with
  | [] => Raise ValueError
  | x :: v' => Ok (Z.of_nat (argmax_from x 0 1 v'))
  end.

End Np.

(** ** The hash primitive of the [mmh3] package *)

Definition token : Type := list byte.

#[global] Instance byte_eq_dec : EqDecision byte := Byte.byte_eq_dec.

#[global] Instance byte_countable : Countable byte :=
  inj_countable Byte.to_N Byte.of_N Byte.of_to_N.

Module Mmh3.

Definition u32 (x : Z) : Z := Z.land x 0xFFFFFFFF.

Definition rotl32 (x r : Z) : Z :=
  u32 (Z.lor (Z.shiftl x r) (Z.shiftr x (32 - r))).

Definition c1 : Z := 0xcc9e2d51.
Definition c2 : Z := 0x1b873593.

Definition scramble (k : Z) : Z :=
  u32 (rotl32 (u32 (k * c1)) 15 * c2).

Definition byteZ (b : byte) : Z := Z.of_N (Byte.to_N b).

Definition tail_word (bs : list byte) : Z :=
  match bs with
  | [] => 0
  | [b0] => byteZ b0
  | [b0; b1] => Z.lor (byteZ b0) (Z.shiftl (byteZ b1) 8)
  | b0 :: b1 :: b2 :: _ =>
      Z.lor (byteZ b0) (Z.lor (Z.shiftl (byteZ b1) 8) (Z.shiftl (byteZ b2) 16))
  end.

(** Four bytes at a time, little endian; the last one to three bytes are
    mixed in without the rotation of the state. *)
Fixpoint blocks (h : Z) (bs : list byte) : Z :=
  match bs with
  | b0 :: b1 :: b2 :: b3 :: rest =>
      let k := Z.lor (tail_word [b0; b1; b2]) (Z.shiftl (byteZ b3) 24) in
      let h := Z.lxor h (scramble k) in
      let h := rotl32 h 13 in
      blocks (u32 (h * 5 + 0xe6546b64)) rest
  | [] => h
  | tl => Z.lxor h (scramble (tail_word tl))
  end.

Definition fmix32 (h : Z) : Z :=
  let h := Z.lxor h (Z.shiftr h 16) in
  let h := u32 (h * 0x85ebca6b) in
  let h := Z.lxor h (Z.shiftr h 13) in
  let h := u32 (h * 0xc2b2ae35) in
  Z.lxor h (Z.shiftr h 16).

Definition signed32 (x : Z) : Z :=
  if x <? 0x80000000 then x else x - 0x100000000.

(** [mmh3.hash(key, seed=seed)], a signed 32-bit int. *)
Definition hash (key : token) (seed : Z) : Z :=
  let h := blocks (u32 seed) key in
  signed32 (fmix32 (Z.lxor h (Z.of_nat (length key)))).

End Mmh3.


(** ** class CountMinSketch *)

Module CountMinSketch.

(** The closure [hash_fn] returned by [_genhash]: it captures [seed] and
    [self], and reads [self.N] when it is called. *)
Record closure : Set := HashFn { seed_of : Z }.

Record sketch : Type := Sketch {
  N : Z;
  M : Z;
  seeds : list Z;
  table : Np.ndarray;
  hashes : list closure;
  nbytes : Z
}.

Definition set_table (self : sketch) (t : Np.ndarray) : sketch :=
  Sketch (N self) (M self) (seeds self) t (hashes self) (nbytes self).

(** The fields [add] never assigns. *)
Definition same_frame (s1 s2 : sketch) : Prop :=
  N s2 = N s1 /\ M s2 = M s1 /\ seeds s2 = seeds s1 /\
  hashes s2 = hashes s1 /\ nbytes s2 = nbytes s1.

(** Two instances that agree on everything [add] reads: dimensions, the
    seeds captured by the hash closures, and the table. *)
Definition same_inputs (a b : sketch) : Prop :=
  N a = N b /\ M a = M b /\ hashes a = hashes b /\ table a = table b.

Definition default_indexes : Z := 2 ^ 8.
Definition default_hashfuncs : Z := 2 ^ 3.

(** No cell of the notebook binds a module-level name [M]. *)
Definition notebook_global_M : option Z := None.

Section WithEnvironment.

(** [mmh3.hash(val, seed=seed)] *)
Variable mmh3_hash : token -> Z -> Z.
(** [sys.getsizeof] on the table and on the list of closures. *)
Variable getsizeof_table : Np.ndarray -> Z.
Variable getsizeof_hashes : list closure -> Z.

Definition _genhash (seed : Z) : closure := HashFn seed.

(** Calling [hash_fn(val)] on the sketch the closure belongs to. *)
Definition hash_fn (self : sketch) (h : closure) (val : token) : outcome Z :=
  let index := mmh3_hash val (seed_of h) in
  mod_ index (N self).

(** The column row [j] assigns to [val], when row [j] has a hash
    function and the hash succeeds. *)
Definition hash_index (self : sketch) (val : token) (j : nat) : option nat :=
  match hashes self !! j with
  | Some h =>
      match hash_fn self h val with
      | Ok k => Some (Z.to_nat k)
      | Raise _ => None
      end
  | None => None
  end.

(** The body of the loop of [add]:
    [self.table[ix, self.hashes[ix](val)] += 1]. The subscript is
    evaluated first, then the cell is read, incremented and stored. *)
Definition add_row (val : token) (ix : Z) : py sketch unit :=
  (self <- get_self ;;
   h <- lift (list_getitem (hashes self) ix) ;;
   k <- lift (hash_fn self h val) ;;
   v <- lift (Np.getitem (table self) ix k) ;;
   t' <- lift (Np.setitem (table self) ix k (v + 1)) ;;
   put_self (set_table self t'))%py.

Definition add (val : token) : py sketch unit :=
  (self <- get_self ;;
   for_each (range 0 (M self)) (add_row val))%py.

(** A sequence of [add] calls, as in the loops of [__init__] and
    [timed_update]. *)
Definition add_all (values : list token) : py sketch unit :=
  for_each values add.

(** [CountMinSketch(seqlist, indexes, hashfuncs)]. The arguments are
    stored as given. [np.arange(hashfuncs)] comes first and refuses a nan or
    infinite float with [ValueError]; for an int it yields the seeds, for a
    finite float it yields float seeds. [np.zeros((self.M, self.N))] is next
    and refuses every float as a dimension with [TypeError], so no sketch is
    ever built from a float. *)
Definition __init__ (seqlist : option (list token)) (indexes hashfuncs : pyarg)
  : outcome sketch :=
  (_ <~ Np.arange_check hashfuncs ;;
   table <~ Np.zeros (hashfuncs, indexes) ;;
   match hashfuncs, indexes with
   | PyInt m, PyInt n =>
       let seeds := Np.arange m in
       let hashes := _genhash <$> seeds in
       let self :=
         Sketch n m seeds table hashes
           (getsizeof_table table + getsizeof_hashes hashes) in
       match seqlist with
       | None => Ok self
       | Some values =>
           match add_all values self with
           | (Ok _, self') => Ok self'
           | (Raise e, _) => Raise e
           end
       end
   | _, _ => Raise TypeError
   end)%py.

(** The call [CountMinSketch(seqlist=.., indexes=.., hashfuncs=..)]:
    an omitted argument takes its default, [2**8] columns and [2**3]
    rows. *)
Definition construct (seqlist : option (list token))
    (indexes hashfuncs : option pyarg) : outcome sketch :=
  __init__ seqlist
    (default (PyInt default_indexes) indexes)
    (default (PyInt default_hashfuncs) hashfuncs).

(** [estimate]: the loop bound is the bare name [M], looked up in the
    module globals; the loop body is [pass] and nothing is returned. *)
Definition estimate (global_M : option Z) (value : token) : py sketch pyval :=
  let results : list Z := [] in
  match global_M with
  | None => lift (Raise NameError)
  | Some m => (for_each (range 0 m) (fun _ => ret tt) ;;; ret PyNone)%py
  end.

End WithEnvironment.

(** The invariant of a sketch with a positive width: the table is a
    well-formed [M] by [N] array and there is one closure per row. *)
Definition wf (self : sketch) : Prop :=
  0 < N self /\ 0 <= M self /\
  Np.wf (table self) /\
  Np.nrows (table self) = Z.to_nat (M self) /\
  Np.ncols (table self) = Z.to_nat (N self) /\
  length (hashes self) = Z.to_nat (M self).

End CountMinSketch.

(** What a [print] call wrote. *)
Inductive printed : Type :=
| PrintValue (label : string) (v : Z)
| PrintLine (s : string).

(** ** class BinaryClassification *)

Module BinaryClassification.
Import CountMinSketch.

Record t : Type := Classifier { streamA : sketch; streamB : sketch }.

Definition __init__ (A B : sketch) (update : bool) : t := Classifier A B.

(** [(tableA * tableB).sum(axis=1).min()] *)
Definition _dotProduct (tableA tableB : Np.ndarray) : outcome Z :=
  (p <~ Np.mul tableA tableB ;; Np.min (Np.sum_axis1 p))%py.

Definition class_A : string := "Subsketch is of class A".
Definition class_B : string := "Subsketch is of class B".

(** [classify] returns nothing; its result is what it prints. *)
Definition classify (self : t) (subsketch : sketch) : outcome pyval * list printed :=
  match _dotProduct (table subsketch) (table (streamA self)) with
  | Raise e => (Raise e, [])
  | Ok x =>
      match _dotProduct (table subsketch) (table (streamB self)) with
      | Raise e => (Raise e, [])
      | Ok y =>
          (Ok PyNone,
           [PrintValue "x=" x; PrintValue "y=" y;
            if x >? y then PrintLine class_A else PrintLine class_B])
      end
  end.

End BinaryClassification.

(** ** class classifier *)

Module classifier.
Import CountMinSketch.

Record t : Type := Classifier { sketchset : list sketch; labels : list string }.

Definition __init__ (sketchset : list sketch) (labels : list string) : t :=
  Classifier sketchset labels.

(** [(tableA * tableB).sum(axis=1).min()] *)
Definition _dotProduct (tableA tableB : Np.ndarray) : outcome Z :=
  (p <~ Np.mul tableA tableB ;; Np.min (Np.sum_axis1 p))%py.

(** [compare]: one inner product per reference sketch, then the label at
    the position of the first largest one. The loop after the comprehension
    has the body [pass]. *)
Definition compare (self : t) (subsketch : sketch) : outcome string :=
  (dotproduct <~ list_comp
     (fun sketch => _dotProduct (table subsketch) (table sketch))
     (sketchset self) ;;
   i <~ Np.argmax dotproduct ;;
   list_getitem (labels self) i)%py.

End classifier.

(** ** class dictionary *)

Module dictionary.

Record t : Type := Dict { dictionary : gmap token Z; nbytes : Z }.

(** The text of the message of [estimate]; it ends in a line feed, and
    [print] adds its own. *)
Definition not_found : string :=
  "Error: Token Not Found " +:+ String (Ascii.ascii_of_nat 10) EmptyString.

Section WithSys.

(** [sys.getsizeof(self)] of a new object and [sys.getsizeof] of a dict. *)
Variable getsizeof_self : Z.
Variable getsizeof_dict : gmap token Z -> Z.

Definition __init__ : t := Dict ∅ getsizeof_self.

Definition add (tok : token) : py t unit :=
  (self <- get_self ;;
   let d :=
     match dictionary self !! tok with
     | Some c => <[tok := c + 1]> (dictionary self)
     | None => <[tok := 1]> (dictionary self)
     end in
   put_self (Dict d (getsizeof_dict d)))%py.

(** The loop of [timed_update]; its clock readings and its two prints are
    not part of the model. *)
Definition add_all (tokenlist : list token) : py t unit :=
  for_each tokenlist add.

End WithSys.

(** [estimate]: the stored count, or, for a key that is not there, the
    message and no value. *)
Definition estimate (self : t) (tok : token) : pyval * list printed :=
  match dictionary self !! tok with
  | Some c => (PyNum c, [])
  | None => (PyNone, [PrintLine not_found])
  end.

End dictionary.

(** ** Exact counts, to compare the tables with *)

Module Counting.
Import CountMinSketch.

(** How often [t] occurs in [values]. *)
Definition occurrences (t : token) (values : list token) : Z :=
  Z.of_nat (length (filter (fun x => x = t) values)).

(** How many of [values] row [j] of the sketch sends to column [k]. *)
Definition hits (mmh3_hash : token -> Z -> Z) (self : sketch) (j k : nat)
    (values : list token) : Z :=
  Z.of_nat (length (filter (fun x => hash_index mmh3_hash self x j = Some k) values)).

(** The inner product of the frequency vectors of two token lists,
    [sum over t of count_xs(t) * count_ys(t)], counted as the number of pairs
    of positions that hold the same token. *)
Definition inner_product (xs ys : list token) : Z :=
  foldr (fun x acc => occurrences x ys + acc) 0 xs.

(** How many of [ys] row [j] puts in the column of [x]. *)
Definition colliding (mmh3_hash : token -> Z -> Z) (self : sketch) (j : nat)
    (ys : list token) (x : token) : Z :=
  match hash_index mmh3_hash self x j with
  | Some c => hits mmh3_hash self j c ys
  | None => 0
  end.

(** The exact total of a list of numbers, and of each stored row. *)
Definition total (l : list Z) : Z := foldr Z.add 0 l.

Definition row_totals (a : Np.ndarray) : list Z := total <$> Np.data a.

(** [sum over k in ks of f k]. *)
Definition sum_over (ks : list nat) (f : nat -> Z) : Z :=
  foldr (fun k acc => f k + acc) 0 ks.

End Counting.


(** ** The specification's point query and inner product, for comparison *)

Module Spec.
Import CountMinSketch.

(** The cell [[j, hash_j(t)]] of a sketch. *)
Definition point_cell (mmh3_hash : token -> Z -> Z) (self : sketch) (t : token)
    (j : nat) : Z :=
  match hash_index mmh3_hash self t j with
  | Some k => Np.cell (table self) j k
  | None => 0
  end.

(** [m] is the minimum of the values [f 0 .. f (d - 1)]. *)
Definition is_min_over (d : nat) (f : nat -> Z) (m : Z) : Prop :=
  (exists j, (j < d)%nat /\ m = f j) /\ (forall j, (j < d)%nat -> m <= f j).

(** [m] is the point query of [t]: the minimum over the rows of the
    cell the row's hash selects. *)
Definition is_point_query (mmh3_hash : token -> Z -> Z) (self : sketch)
    (t : token) (m : Z) : Prop :=
  is_min_over (Z.to_nat (M self)) (point_cell mmh3_hash self t) m.

(** The row-wise dot product [sum over k of A[j,k] * B[j,k]]. *)
Definition row_dot (A B : Np.ndarray) (w : nat) (j : nat) : Z :=
  foldr (fun k acc => Np.cell A j k * Np.cell B j k + acc) 0 (seq 0 w).

End Spec.

(** ** Concrete sketches used to run the model *)

Module Examples.
Import CountMinSketch.

Definition bytes (s : string) : token := String.list_byte_of_string s.

Definition getsizeof_table (a : Np.ndarray) : Z :=
  128 + 8 * Z.of_nat (Np.nrows a * Np.ncols a).
Definition getsizeof_hashes (l : list closure) : Z :=
  56 + 8 * Z.of_nat (length l).

Definition new (seqlist : option (list token)) (indexes hashfuncs : Z)
  : outcome sketch :=
  __init__ Mmh3.hash getsizeof_table getsizeof_hashes seqlist
    (PyInt indexes) (PyInt hashfuncs).

(** A sketch whose fields are written out: [N = 4], [M = 2]. *)
Definition two_by_four : sketch :=
  Sketch 4 2 [0; 1] (Np.Array 2 4 [[0; 3; 0; 1]; [2; 0; 2; 0]])
    [HashFn 0; HashFn 1] 0.

(** The sketch [CountMinSketch(indexes=4, hashfuncs=2)] as constructed,
    and the same object where [sys.getsizeof] reports zero. *)
Definition fresh : sketch :=
  Sketch 4 2 [0; 1] (Np.Array 2 4 [[0; 0; 0; 0]; [0; 0; 0; 0]])
    [HashFn 0; HashFn 1] 264.
Definition fresh_unsized : sketch :=
  Sketch 4 2 [0; 1] (Np.Array 2 4 [[0; 0; 0; 0]; [0; 0; 0; 0]])
    [HashFn 0; HashFn 1] 0.

(** Three rows, four columns. *)
Definition three_by_four : sketch :=
  Sketch 4 3 [0; 1; 2]
    (Np.Array 3 4 [[1; 0; 0; 0]; [0; 1; 0; 0]; [0; 0; 0; 1]])
    [HashFn 0; HashFn 1; HashFn 2] 304.

(** One row, one column. *)
Definition one_cell (v : Z) : sketch :=
  Sketch 1 1 [0] (Np.Array 1 1 [[v]]) [HashFn 0] 200.

(** The float64 values of the literals [0.1] and [0.05]:
    [0x1.999999999999ap-4] and [0x1.999999999999ap-5]. *)
Definition eps_tenth : spec_float :=
  S754_finite false 0x1999999999999a (-56).
Definition delta_twentieth : spec_float :=
  S754_finite false 0x1999999999999a (-57).

(** [CountMinSketch(indexes=1, hashfuncs=0)]: no rows, one column. *)
Definition no_rows : sketch := Sketch 1 0 [] (Np.Array 0 1 []) [] 184.

(** Two rows, one column. *)
Definition two_rows (v : Z) : sketch :=
  Sketch 1 2 [0; 1] (Np.Array 2 1 [[v]; [v]]) [HashFn 0; HashFn 1] 216.

End Examples.

(** * Verification *)

Import CountMinSketch.

(** ** Facts about the Python layer *)

Section PyFacts.

Lemma norm_index_inrange (len : nat) (i : Z) :
  0 <= i < Z.of_nat len -> norm_index len i = Ok (Z.to_nat i).
Proof.
  intros Hi. unfold norm_index.
  destruct (Z.leb_spec 0 i); [|lia].
  destruct (Z.ltb_spec i (Z.of_nat len)); [reflexivity|lia].
Qed.

Lemma list_getitem_inrange {A} (l : list A) (i : nat) (x : A) :
  l !! i = Some x -> list_getitem l (Z.of_nat i) = Ok x.
Proof.
  intros Hx. unfold list_getitem.
  rewrite norm_index_inrange by (apply lookup_lt_Some in Hx; lia).
  simpl. rewrite Nat2Z.id, Hx. reflexivity.
Qed.

Lemma mod_positive (a n : Z) :
  0 < n -> exists c, mod_ a n = Ok c /\ 0 <= c < n.
Proof.
  intros Hn. exists (a mod n). unfold mod_.
  destruct (Z.eqb_spec n 0); [lia|].
  split; [reflexivity | apply Z.mod_pos_bound; lia].
Qed.

(** A relation that every iteration respects, whether it returns or
    raises, holds between the state before and after the loop. *)
Lemma for_each_related {S B} (R : S -> S -> Prop) (body : B -> py S unit) :
  (forall s, R s s) ->
  (forall s1 s2 s3, R s1 s2 -> R s2 s3 -> R s1 s3) ->
  (forall x s, R s (snd (body x s))) ->
  forall xs s, R s (snd (for_each xs body s)).
Proof.
  intros Hrefl Htrans Hbody xs.
  induction xs as [|x xs IH]; intros s; simpl.
  - apply Hrefl.
  - unfold bind. specialize (Hbody x s).
    destruct (body x s) as [[[]|e] s']; simpl in *.
    + eapply Htrans; [exact Hbody | apply IH].
    + exact Hbody.
Qed.

End PyFacts.

(** ** Facts about arrays *)

Section NpFacts.

(** Storing [v] at [[i, k]]: the stored cell reads [v], any other cell is
    as before; outside the storage nothing changes. *)
Lemma cell_alter_insert (r c r' c' : nat) (d : list (list Z)) (i k : nat) (v : Z)
    (x y : nat) :
  Np.cell (Np.Array r' c' (alter (fun row => <[k := v]> row) i d)) x y =
  if decide (x = i /\ y = k /\ is_Some (d !! i ≫= fun row => row !! k))
  then v else Np.cell (Np.Array r c d) x y.
Proof.
  unfold Np.cell. simpl.
  destruct (decide (x = i)) as [->|Hx].
  - rewrite list_lookup_alter_eq.
    destruct (d !! i) as [row|] eqn:Hrow; simpl.
    + destruct (decide (y = k)) as [->|Hy].
      * destruct (row !! k) as [old|] eqn:Hold.
        -- rewrite list_lookup_insert_eq by (eapply lookup_lt_Some; eauto).
           rewrite decide_True by eauto. reflexivity.
        -- rewrite list_insert_ge by (apply lookup_ge_None; exact Hold).
           rewrite Hold. rewrite decide_False; [reflexivity|].
           intros (_ & _ & [? ?]); discriminate.
      * rewrite list_lookup_insert_ne by congruence.
        rewrite decide_False by tauto. reflexivity.
    + rewrite decide_False; [reflexivity|]. intros (_ & _ & [? ?]); discriminate.
  - rewrite list_lookup_alter_ne by congruence.
    rewrite decide_False by tauto. reflexivity.
Qed.

Lemma wf_lookup (a : Np.ndarray) (i k : nat) :
  Np.wf a -> (i < Np.nrows a)%nat -> (k < Np.ncols a)%nat ->
  is_Some (Np.data a !! i ≫= fun row => row !! k).
Proof.
  intros [Hlen Hrows] Hi Hk.
  destruct (lookup_lt_is_Some_2 (Np.data a) i) as [row Hrow]; [lia|].
  rewrite Hrow. simpl. apply lookup_lt_is_Some_2.
  rewrite Forall_lookup in Hrows. rewrite (Hrows _ _ Hrow). exact Hk.
Qed.

Lemma wf_alter_insert (a : Np.ndarray) (i k : nat) (v : Z) :
  Np.wf a ->
  Np.wf (Np.Array (Np.nrows a) (Np.ncols a)
           (alter (fun row => <[k := v]> row) i (Np.data a))).
Proof.
  intros [Hlen Hrows]. split; simpl.
  - rewrite length_alter. exact Hlen.
  - apply Forall_alter; [exact Hrows|].
    intros row _. rewrite length_insert. tauto.
Qed.

Lemma zeros_spec (r c : Z) :
  0 <= r -> 0 <= c ->
  exists a, Np.zeros (PyInt r, PyInt c) = Ok a /\ Np.wf a /\
            Np.nrows a = Z.to_nat r /\ Np.ncols a = Z.to_nat c /\
            forall i k, Np.cell a i k = 0.
Proof.
  intros Hr Hc. unfold Np.zeros.
  destruct (Z.ltb_spec r 0); [lia|]. destruct (Z.ltb_spec c 0); [lia|]. simpl.
  eexists. split; [reflexivity|]. repeat split; simpl.
  - apply length_replicate.
  - apply Forall_replicate, length_replicate.
  - intros i k. unfold Np.cell. simpl.
    destruct (replicate (Z.to_nat r) (replicate (Z.to_nat c) 0) !! i) as [row|] eqn:Hrow;
      [|reflexivity].
    apply lookup_replicate in Hrow as [-> _]. simpl.
    destruct (replicate (Z.to_nat c) 0 !! k) as [v|] eqn:Hv; [|reflexivity].
    apply lookup_replicate in Hv as [-> _]. reflexivity.
Qed.

Lemma zeros_cells (shape : pyarg * pyarg) (a : Np.ndarray) :
  Np.zeros shape = Ok a -> forall i k, Np.cell a i k = 0.
Proof.
  destruct shape as [[r|x] [c|y]]; simpl; try discriminate.
  destruct (Z.ltb_spec r 0); simpl; [discriminate|].
  destruct (Z.ltb_spec c 0); simpl; [discriminate|].
  intros Ha. destruct (zeros_spec r c) as (a' & Ha' & _ & _ & _ & Hz); [lia..|].
  unfold Np.zeros in Ha'.
  destruct (Z.ltb_spec r 0); [lia|]. destruct (Z.ltb_spec c 0); [lia|]. simpl in Ha'.
  congruence.
Qed.

End NpFacts.

(** ** One row of [add] *)

Section AddRow.

Variable mmh3_hash : token -> Z -> Z.

(** An iteration either raises before it stores anything or increments
    one cell. *)
Lemma add_row_cases (val : token) (ix : Z) (self : sketch) :
  (exists e, add_row mmh3_hash val ix self = (Raise e, self)) \/
  (exists i k, add_row mmh3_hash val ix self =
               (Ok tt, set_table self (Np.bumped (table self) i k))).
Proof.
  unfold add_row, bind, get_self, lift, put_self.
  destruct (list_getitem (hashes self) ix) as [h|e]; [|left; eauto].
  destruct (hash_fn mmh3_hash self h val) as [c|e]; [|left; eauto].
  unfold Np.getitem, Np.setitem.
  destruct (norm_index (Np.nrows (table self)) ix) as [i|e]; simpl; [|left; eauto].
  destruct (norm_index (Np.ncols (table self)) c) as [k|e]; simpl; [|left; eauto].
  right. exists i, k. reflexivity.
Qed.

Lemma bumped_cell (a : Np.ndarray) (i k x y : nat) :
  Np.cell (Np.bumped a i k) x y =
  if decide (x = i /\ y = k /\ is_Some (Np.data a !! i ≫= fun row => row !! k))
  then Np.cell a i k + 1 else Np.cell a x y.
Proof.
  unfold Np.bumped. rewrite (cell_alter_insert (Np.nrows a) (Np.ncols a)).
  destruct a; reflexivity.
Qed.

Lemma bumped_le (a : Np.ndarray) (i k : nat) : Np.cells_le a (Np.bumped a i k).
Proof.
  intros x y. rewrite bumped_cell.
  destruct (decide _) as [(-> & -> & _)|_]; lia.
Qed.

Lemma add_row_le (val : token) (ix : Z) (self : sketch) :
  Np.cells_le (table self) (table (snd (add_row mmh3_hash val ix self))).
Proof.
  destruct (add_row_cases val ix self) as [[e ->]|(i & k & ->)]; simpl.
  - intros x y. lia.
  - apply bumped_le.
Qed.

Lemma add_rows_le (val : token) (rows : list Z) (self : sketch) :
  Np.cells_le (table self)
    (table (snd (for_each rows (add_row mmh3_hash val) self))).
Proof.
  apply (for_each_related (fun s1 s2 => Np.cells_le (table s1) (table s2))).
  - intros s x y. lia.
  - intros s1 s2 s3 H12 H23 x y. specialize (H12 x y). specialize (H23 x y). lia.
  - intros ix s. apply add_row_le.
Qed.

Lemma add_le (val : token) (self : sketch) :
  Np.cells_le (table self) (table (snd (add mmh3_hash val self))).
Proof. unfold add, bind, get_self. apply add_rows_le. Qed.

Lemma add_all_le (values : list token) (self : sketch) :
  Np.cells_le (table self) (table (snd (add_all mmh3_hash values self))).
Proof.
  unfold add_all.
  apply (for_each_related (fun s1 s2 => Np.cells_le (table s1) (table s2))).
  - intros s x y. lia.
  - intros s1 s2 s3 H12 H23 x y. specialize (H12 x y). specialize (H23 x y). lia.
  - intros val s. apply add_le.
Qed.

(** On a sketch that satisfies the invariant, the iteration for row [j]
    returns and increments the cell the hash of that row selects. *)
Lemma add_row_wf (val : token) (j : nat) (self : sketch) (h : closure) (c : Z) :
  wf self ->
  hashes self !! j = Some h ->
  hash_fn mmh3_hash self h val = Ok c ->
  0 <= c < N self /\
  add_row mmh3_hash val (Z.of_nat j) self =
    (Ok tt, set_table self (Np.bumped (table self) j (Z.to_nat c))).
Proof.
  intros (HN & HM & Hwf & Hrows & Hcols & Hlen) Hh Hc.
  assert (Hj : (j < Z.to_nat (M self))%nat)
    by (rewrite <- Hlen; eapply lookup_lt_Some; eauto).
  assert (Hcb : 0 <= c < N self).
  { unfold hash_fn in Hc. destruct (mod_positive (mmh3_hash val (seed_of h)) _ HN)
      as (c' & Hc' & Hb). congruence. }
  split; [exact Hcb|].
  unfold add_row, bind, get_self, lift, put_self.
  rewrite (list_getitem_inrange _ _ _ Hh), Hc.
  unfold Np.getitem, Np.setitem.
  rewrite norm_index_inrange by lia. simpl.
  rewrite norm_index_inrange by lia. simpl.
  rewrite Nat2Z.id. reflexivity.
Qed.

Lemma set_table_wf (self : sketch) (i k : nat) :
  wf self -> wf (set_table self (Np.bumped (table self) i k)).
Proof.
  intros (HN & HM & Hwf & Hrows & Hcols & Hlen).
  unfold wf, set_table; simpl.
  split; [exact HN|]. split; [exact HM|].
  split; [apply (wf_alter_insert (table self) i k _ Hwf)|].
  auto.
Qed.

End AddRow.

(** ** The whole loop of [add] on a sketch that satisfies the invariant *)

Section AddSpec.

Variable mmh3_hash : token -> Z -> Z.

Lemma hash_index_frame (s1 s2 : sketch) (val : token) (j : nat) :
  same_frame s1 s2 -> hash_index mmh3_hash s2 val j = hash_index mmh3_hash s1 val j.
Proof.
  intros (HN & _ & _ & Hh & _). unfold hash_index, hash_fn. rewrite Hh, HN. reflexivity.
Qed.

Lemma hash_index_defined (self : sketch) (val : token) (j : nat) :
  wf self -> (j < Z.to_nat (M self))%nat ->
  exists h c, hashes self !! j = Some h /\
              hash_fn mmh3_hash self h val = Ok c /\ 0 <= c < N self /\
              hash_index mmh3_hash self val j = Some (Z.to_nat c).
Proof.
  intros Hwf Hj. pose proof Hwf as (HN & HM & _ & _ & _ & Hlen).
  destruct (lookup_lt_is_Some_2 (hashes self) j) as [h Hh]; [lia|].
  destruct (mod_positive (mmh3_hash val (seed_of h)) _ HN) as (c & Hc & Hb).
  exists h, c. unfold hash_index. rewrite Hh. fold (hash_fn mmh3_hash self h val) in Hc.
  rewrite Hc. auto.
Qed.

Lemma add_rows_spec (val : token) (rows : list Z) :
  NoDup rows ->
  forall self,
    wf self ->
    (forall ix, ix ∈ rows -> 0 <= ix < M self) ->
    exists self',
      for_each rows (add_row mmh3_hash val) self = (Ok tt, self') /\
      wf self' /\ same_frame self self' /\
      forall x y,
        Np.cell (table self') x y =
        if decide (Z.of_nat x ∈ rows /\ hash_index mmh3_hash self val x = Some y)
        then Np.cell (table self) x y + 1
        else Np.cell (table self) x y.
Proof.
  induction 1 as [|ix rows Hnotin Hnodup IH]; intros self Hwf Hrange.
  - exists self. split; [reflexivity|]. split; [exact Hwf|].
    split; [repeat split|].
    intros x y. rewrite decide_False; [reflexivity|].
    intros [Hin _]. inversion Hin.
  - assert (Hix : 0 <= ix < M self) by (apply Hrange; left).
    destruct (hash_index_defined self val (Z.to_nat ix) Hwf)
      as (h & c & Hh & Hc & Hcb & Hidx); [lia|].
    destruct (add_row_wf mmh3_hash val _ self h c Hwf Hh Hc) as [_ Hrow].
    rewrite Z2Nat.id in Hrow by lia.
    set (s1 := set_table self (Np.bumped (table self) (Z.to_nat ix) (Z.to_nat c))) in *.
    assert (Hwf1 : wf s1) by (apply set_table_wf; exact Hwf).
    assert (Hframe1 : same_frame self s1) by (repeat split).
    destruct (IH s1 Hwf1) as (s2 & Hrun & Hwf2 & Hframe2 & Hcells).
    { intros ix' Hin. destruct Hframe1 as (_ & -> & _). apply Hrange. right. exact Hin. }
    exists s2. simpl. unfold bind. rewrite Hrow.
    split; [exact Hrun|]. split; [exact Hwf2|].
    split.
    { destruct Hframe1 as (a1 & a2 & a3 & a4 & a5), Hframe2 as (b1 & b2 & b3 & b4 & b5).
      repeat split; congruence. }
    intros x y. rewrite Hcells. rewrite (hash_index_frame self s1 val x Hframe1).
    subst s1. simpl. rewrite bumped_cell.
    pose proof Hwf as (HN & HM & Hnp & Hrows & Hcols & Hlen).
    destruct (decide (x = Z.to_nat ix)) as [->|Hx].
    + rewrite Z2Nat.id by lia. rewrite Hidx.
      destruct (decide (y = Z.to_nat c)) as [->|Hy].
      * rewrite (decide_False (P := ix ∈ rows /\ _)) by tauto.
        rewrite (decide_True (P := _ /\ _ /\ is_Some _)).
        2:{ split; [reflexivity|]. split; [reflexivity|].
            apply wf_lookup; [exact Hnp | lia | lia]. }
        rewrite decide_True; [reflexivity|]. split; [left | reflexivity].
      * rewrite (decide_False (P := ix ∈ rows /\ _)) by tauto.
        rewrite (decide_False (P := _ /\ _ /\ is_Some _)) by tauto.
        rewrite decide_False; [reflexivity|]. intros [_ [=]]. lia.
    + rewrite (decide_False (P := _ /\ _ /\ is_Some _)) by tauto.
      assert (Hne : Z.of_nat x <> ix) by lia.
      destruct (decide (Z.of_nat x ∈ rows /\ hash_index mmh3_hash self val x = Some y))
        as [[Hin Hy]|Hno].
      * rewrite decide_True; [reflexivity|]. split; [right; exact Hin | exact Hy].
      * rewrite decide_False; [reflexivity|]. intros [Hin Hy].
        apply Hno. split; [|exact Hy]. inversion Hin; subst; [congruence | assumption].
Qed.

(** [add] on a sketch that satisfies the invariant: it returns, keeps the
    invariant, and adds one to exactly the cell each row's hash selects. *)
Lemma add_spec (val : token) (self : sketch) :
  wf self ->
  exists self',
    add mmh3_hash val self = (Ok tt, self') /\
    wf self' /\ same_frame self self' /\
    forall j k,
      Np.cell (table self') j k =
      if decide ((j < Z.to_nat (M self))%nat /\ hash_index mmh3_hash self val j = Some k)
      then Np.cell (table self) j k + 1
      else Np.cell (table self) j k.
Proof.
  intros Hwf. pose proof Hwf as (HN & HM & _).
  destruct (add_rows_spec val (range 0 (M self))) with (self := self)
    as (self' & Hrun & Hwf' & Hframe & Hcells).
  - apply NoDup_seqZ.
  - exact Hwf.
  - intros ix Hin. unfold range in Hin. apply elem_of_seqZ in Hin. lia.
  - exists self'. unfold add, bind, get_self.
    split; [exact Hrun|]. split; [exact Hwf'|]. split; [exact Hframe|].
    intros j k. rewrite Hcells.
    destruct (decide ((j < Z.to_nat (M self))%nat /\ _)) as [[Hj Hk]|Hno].
    + rewrite decide_True; [reflexivity|]. split; [|exact Hk].
      unfold range. apply elem_of_seqZ. lia.
    + rewrite decide_False; [reflexivity|]. intros [Hin Hk]. apply Hno.
      split; [|exact Hk]. unfold range in Hin. apply elem_of_seqZ in Hin. lia.
Qed.

End AddSpec.

(** ** The hash primitive on the published test vectors *)

Example mmh3_foo : Mmh3.hash (Examples.bytes "foo") 0 = -156908512.
Proof. reflexivity. Qed.

Example mmh3_foo_seed : Mmh3.hash (Examples.bytes "foo") 42 = -1322301282.
Proof. reflexivity. Qed.

Example mmh3_empty_seed : Mmh3.hash (Examples.bytes "") 1 = 0x514E28B7.
Proof. reflexivity. Qed.

Example mmh3_fox :
  Mmh3.hash (Examples.bytes "The quick brown fox jumps over the lazy dog") 0 = 0x2e4ff723.
Proof. reflexivity. Qed.

(** ** Construction *)

Section Construction.

Variable mmh3_hash : token -> Z -> Z.
Variable getsizeof_table : Np.ndarray -> Z.
Variable getsizeof_hashes : list closure -> Z.

Lemma hashes_length (m : Z) : length (_genhash <$> Np.arange m) = Z.to_nat m.
Proof. rewrite length_fmap. unfold Np.arange, range. rewrite length_seqZ. f_equal. lia. Qed.

(** The object [__init__] has built when it reaches the bulk load. *)
Lemma init_fresh (indexes hashfuncs : pyarg) (s : sketch) :
  __init__ mmh3_hash getsizeof_table getsizeof_hashes None indexes hashfuncs = Ok s ->
  exists n m a,
    indexes = PyInt n /\ hashfuncs = PyInt m /\ 0 <= n /\ 0 <= m /\
    Np.zeros (PyInt m, PyInt n) = Ok a /\
    s = Sketch n m (Np.arange m) a (_genhash <$> Np.arange m)
          (getsizeof_table a + getsizeof_hashes (_genhash <$> Np.arange m)).
Proof.
  unfold __init__.
  destruct hashfuncs as [m|[]], indexes as [n|y]; simpl; try discriminate.
  destruct (Z.ltb_spec m 0); simpl; [discriminate|].
  destruct (Z.ltb_spec n 0); simpl; [discriminate|].
  intros [= <-]. exists n, m. eexists. repeat split; try lia.
  destruct (Z.ltb_spec m 0); [lia|]. destruct (Z.ltb_spec n 0); [lia|]. reflexivity.
Qed.

(** Bulk loading is construction followed by the same [add] calls. *)
Lemma init_bulk (values : list token) (indexes hashfuncs : pyarg) (s : sketch) :
  __init__ mmh3_hash getsizeof_table getsizeof_hashes (Some values) indexes hashfuncs = Ok s ->
  exists s0,
    __init__ mmh3_hash getsizeof_table getsizeof_hashes None indexes hashfuncs = Ok s0 /\
    add_all mmh3_hash values s0 = (Ok tt, s).
Proof.
  unfold __init__.
  destruct hashfuncs as [m|[]], indexes as [n|y]; simpl; try discriminate.
  destruct ((m <? 0) || (n <? 0)); simpl; [discriminate|].
  match goal with |- context [add_all _ _ ?s0] => set (fresh := s0) end.
  destruct (add_all mmh3_hash values fresh) as [[[]|e] s'] eqn:Hrun; [|discriminate].
  intros [= <-]. exists fresh. split; [reflexivity | exact Hrun].
Qed.

Lemma init_wf (indexes hashfuncs : pyarg) (s : sketch) :
  __init__ mmh3_hash getsizeof_table getsizeof_hashes None indexes hashfuncs = Ok s ->
  0 < N s -> wf s.
Proof.
  intros Hinit HN.
  destruct (init_fresh _ _ _ Hinit) as (n & m & a & -> & -> & Hn & Hm & Ha & ->).
  destruct (zeros_spec m n Hm Hn) as (a' & Ha' & Hwf & Hr & Hc & _).
  assert (a' = a) as -> by congruence.
  unfold wf; simpl in *. repeat split; try assumption; try apply Hwf.
  apply hashes_length.
Qed.

End Construction.

(** ** Point query *)

Lemma for_each_pass {S B} (xs : list B) (s : S) :
  for_each xs (fun _ => ret tt) s = (Ok tt, s).
Proof. induction xs as [|x xs IH]; simpl; [reflexivity|]. unfold bind, ret at 1. exact IH. Qed.

Lemma estimate_outcome (g : option Z) (val : token) (self : sketch) :
  estimate g val self =
  match g with
  | None => (Raise NameError, self)
  | Some _ => (Ok PyNone, self)
  end.
Proof.
  unfold estimate. destruct g as [m|]; [|reflexivity].
  unfold bind. rewrite for_each_pass. reflexivity.
Qed.

(** C1 (not met by the code). The claim asks that the point query of a
    token return the minimum, over the rows, of the cell the row's hash
    selects. [estimate] is an unfinished stub: whatever the sketch and the
    token, it never returns a number. In the notebook the name [M] of its
    loop bound is unbound, so the call raises [NameError]; were [M] bound, the
    loop body is [pass] and the method returns [None]. On the one-cell sketch
    that has received the token once, the claimed estimate is 1. *)
Theorem estimate_is_an_unfinished_stub :
  (forall (g : option Z) (val : token) (self : sketch) (m : Z),
      fst (estimate g val self) <> Ok (PyNum m)) /\
  Examples.new (Some [Examples.bytes "ACGT"]) 1 1 = Ok (Examples.one_cell 1) /\
  Spec.is_point_query Mmh3.hash (Examples.one_cell 1) (Examples.bytes "ACGT") 1 /\
  estimate notebook_global_M (Examples.bytes "ACGT") (Examples.one_cell 1)
    = (Raise NameError, Examples.one_cell 1).
Proof.
  split.
  { intros g val self m. rewrite estimate_outcome. destruct g; simpl; discriminate. }
  split; [reflexivity|]. split; [|reflexivity].
  split.
  - exists 0%nat. split; [simpl; lia | reflexivity].
  - intros j Hj. simpl in Hj. assert (j = 0%nat) as -> by lia. vm_compute. discriminate.
Qed.

(** ** Update *)

(** C2. On every sketch that satisfies the invariant (positive width, an
    [M] by [N] table, one hash function per row), [add], whose weight is
    always one, returns normally; in each row [j] below [M] the hash of the
    row selects a column [c] below [N], the cell [[j, c]] grows by exactly
    one, and every other cell of the table is unchanged. *)
Theorem add_increments_exactly_the_hashed_cells
    (mmh3_hash : token -> Z -> Z) (val : token) (self : sketch) :
  wf self ->
  exists self',
    add mmh3_hash val self = (Ok tt, self') /\
    (forall j, (j < Z.to_nat (M self))%nat ->
       exists c, hash_index mmh3_hash self val j = Some c /\
                 (c < Z.to_nat (N self))%nat /\
                 Np.cell (table self') j c = Np.cell (table self) j c + 1 /\
                 forall k, k <> c -> Np.cell (table self') j k = Np.cell (table self) j k) /\
    (forall j k, (Z.to_nat (M self) <= j)%nat ->
       Np.cell (table self') j k = Np.cell (table self) j k).
Proof.
  intros Hwf.
  destruct (add_spec mmh3_hash val self Hwf) as (self' & Hrun & _ & _ & Hcells).
  exists self'. split; [exact Hrun|]. split.
  - intros j Hj.
    destruct (hash_index_defined mmh3_hash self val j Hwf Hj) as (h & c & _ & _ & Hc & Hidx).
    exists (Z.to_nat c). split; [exact Hidx|]. split; [lia|]. split.
    + rewrite Hcells. rewrite decide_True by auto. reflexivity.
    + intros k Hk. rewrite Hcells. rewrite decide_False; [reflexivity|].
      intros [_ Heq]. congruence.
  - intros j k Hj. rewrite Hcells. rewrite decide_False; [reflexivity|]. lia.
Qed.

Lemma two_by_four_wf : wf Examples.two_by_four.
Proof.
  unfold wf, Np.wf; simpl.
  repeat split; try lia; repeat constructor.
Defined.

Lemma add_increments_exactly_the_hashed_cells_witness :
  wf Examples.two_by_four /\
  exists self',
    add Mmh3.hash (Examples.bytes "ACGT") Examples.two_by_four = (Ok tt, self') /\
    (forall j, (j < Z.to_nat (M Examples.two_by_four))%nat ->
       exists c, hash_index Mmh3.hash Examples.two_by_four (Examples.bytes "ACGT") j = Some c /\
                 (c < Z.to_nat (N Examples.two_by_four))%nat /\
                 Np.cell (table self') j c = Np.cell (table Examples.two_by_four) j c + 1 /\
                 forall k, k <> c ->
                   Np.cell (table self') j k = Np.cell (table Examples.two_by_four) j k) /\
    (forall j k, (Z.to_nat (M Examples.two_by_four) <= j)%nat ->
       Np.cell (table self') j k = Np.cell (table Examples.two_by_four) j k).
Proof.
  split; [exact two_by_four_wf|].
  apply (add_increments_exactly_the_hashed_cells Mmh3.hash (Examples.bytes "ACGT")
           Examples.two_by_four two_by_four_wf).
Defined.

Example add_two_by_four :
  add Mmh3.hash (Examples.bytes "ACGT") Examples.two_by_four =
  (Ok tt, set_table Examples.two_by_four (Np.Array 2 4 [[0; 3; 1; 1]; [3; 0; 2; 0]])).
Proof. reflexivity. Qed.

(** A sketch of width zero can be constructed; [add] then raises at the
    first row and stores nothing. *)
Example add_zero_width :
  exists s, Examples.new None 0 2 = Ok s /\
            add Mmh3.hash (Examples.bytes "ACGT") s = (Raise ZeroDivisionError, s).
Proof. eexists. split; reflexivity. Qed.

(** ** Non-negativity and monotonicity *)

Lemma init_cells_nonneg
    (mmh3_hash : token -> Z -> Z) (gt : Np.ndarray -> Z) (gh : list closure -> Z)
    (seqlist : option (list token)) (indexes hashfuncs : pyarg) (s : sketch) :
  __init__ mmh3_hash gt gh seqlist indexes hashfuncs = Ok s ->
  Np.cells_nonneg (table s).
Proof.
  destruct seqlist as [values|].
  - intros Hinit. destruct (init_bulk _ _ _ _ _ _ _ Hinit) as (s0 & Hs0 & Hrun).
    destruct (init_fresh _ _ _ _ _ _ Hs0) as (n & m & a & _ & _ & _ & _ & Ha & ->).
    pose proof (add_all_le mmh3_hash values
      (Sketch n m (Np.arange m) a (_genhash <$> Np.arange m)
         (gt a + gh (_genhash <$> Np.arange m)))) as Hle.
    rewrite Hrun in Hle. simpl in Hle.
    intros i k. specialize (Hle i k). rewrite (zeros_cells _ _ Ha) in Hle. exact Hle.
  - intros Hinit.
    destruct (init_fresh _ _ _ _ _ _ Hinit) as (n & m & a & _ & _ & _ & _ & Ha & ->).
    intros i k. simpl. rewrite (zeros_cells _ _ Ha). lia.
Qed.

(** C6. Take a sketch as its constructor returns it (empty, or bulk-loaded
    from a sequence) and apply any sequence of [add] calls, whether they
    return or raise. In the state [s] after the sequence every cell is
    non-negative, and one more [add] leaves every cell at least as large as
    it was. The same holds inside an [add]: in the state [mid] reached after
    any number of iterations of its loop every cell is non-negative, and the
    next iteration decreases none. *)
Theorem cells_are_nonnegative_and_never_decrease
    (mmh3_hash : token -> Z -> Z) (gt : Np.ndarray -> Z) (gh : list closure -> Z)
    (seqlist : option (list token)) (indexes hashfuncs : pyarg) (s0 : sketch) :
  __init__ mmh3_hash gt gh seqlist indexes hashfuncs = Ok s0 ->
  forall (values : list token) (val : token) (rows : list Z) (ix : Z),
    let s := snd (add_all mmh3_hash values s0) in
    let mid := snd (for_each rows (add_row mmh3_hash val) s) in
    Np.cells_nonneg (table s) /\
    Np.cells_le (table s) (table (snd (add mmh3_hash val s))) /\
    Np.cells_nonneg (table mid) /\
    Np.cells_le (table mid) (table (snd (add_row mmh3_hash val ix mid))).
Proof.
  intros Hinit values val rows ix s mid.
  assert (Hs : Np.cells_nonneg (table s)).
  { intros i k.
    pose proof (init_cells_nonneg _ _ _ _ _ _ _ Hinit i k) as H0.
    pose proof (add_all_le mmh3_hash values s0 i k) as Hle.
    subst s. lia. }
  split; [exact Hs|]. split; [apply add_le|]. split; [|apply add_row_le].
  intros i k. pose proof (add_rows_le mmh3_hash val rows s i k) as Hle.
  specialize (Hs i k). subst mid. lia.
Qed.

Lemma cells_are_nonnegative_and_never_decrease_witness :
  Examples.new None 4 2 = Ok Examples.fresh /\
  forall (values : list token) (val : token) (rows : list Z) (ix : Z),
    let s := snd (add_all Mmh3.hash values Examples.fresh) in
    let mid := snd (for_each rows (add_row Mmh3.hash val) s) in
    Np.cells_nonneg (table s) /\
    Np.cells_le (table s) (table (snd (add Mmh3.hash val s))) /\
    Np.cells_nonneg (table mid) /\
    Np.cells_le (table mid) (table (snd (add_row Mmh3.hash val ix mid))).
Proof.
  split; [reflexivity|].
  apply (cells_are_nonnegative_and_never_decrease Mmh3.hash
           Examples.getsizeof_table Examples.getsizeof_hashes None (PyInt 4) (PyInt 2)).
  reflexivity.
Defined.

(** ** Hash indices *)

(** C7. On a sketch that satisfies the invariant, for every token and every
    row [j] below [M], the hash function of the row returns (it does not
    raise) a column [c] with [0 <= c < N]; the cell [[j, c]] is a valid
    subscript of the table, and [add] as a whole returns without raising. *)
Theorem hash_index_is_always_a_column
    (mmh3_hash : token -> Z -> Z) (self : sketch) (val : token) :
  wf self ->
  (forall j, (j < Z.to_nat (M self))%nat ->
     exists h c v,
       hashes self !! j = Some h /\
       hash_fn mmh3_hash self h val = Ok c /\ 0 <= c < N self /\
       Np.getitem (table self) (Z.of_nat j) c = Ok v) /\
  fst (add mmh3_hash val self) = Ok tt.
Proof.
  intros Hwf. split.
  - intros j Hj.
    destruct (hash_index_defined mmh3_hash self val j Hwf Hj) as (h & c & Hh & Hc & Hcb & _).
    destruct Hwf as (HN & HM & _ & Hrows & Hcols & _).
    exists h, c. eexists. split; [exact Hh|]. split; [exact Hc|]. split; [exact Hcb|].
    unfold Np.getitem.
    rewrite norm_index_inrange by lia. simpl.
    rewrite norm_index_inrange by lia. reflexivity.
  - destruct (add_spec mmh3_hash val self Hwf) as (self' & -> & _). reflexivity.
Qed.

Lemma hash_index_is_always_a_column_witness :
  wf Examples.two_by_four /\
  (forall j, (j < Z.to_nat (M Examples.two_by_four))%nat ->
     exists h c v,
       hashes Examples.two_by_four !! j = Some h /\
       hash_fn Mmh3.hash Examples.two_by_four h (Examples.bytes "TTTT") = Ok c /\
       0 <= c < N Examples.two_by_four /\
       Np.getitem (table Examples.two_by_four) (Z.of_nat j) c = Ok v) /\
  fst (add Mmh3.hash (Examples.bytes "TTTT") Examples.two_by_four) = Ok tt.
Proof.
  split; [exact two_by_four_wf|].
  apply (hash_index_is_always_a_column Mmh3.hash Examples.two_by_four
           (Examples.bytes "TTTT") two_by_four_wf).
Defined.

(** The invariant holds of every constructed sketch of positive width and
    is kept by [add]. *)
Lemma wf_reachable
    (mmh3_hash : token -> Z -> Z) (gt : Np.ndarray -> Z) (gh : list closure -> Z)
    (indexes hashfuncs : pyarg) (s0 : sketch) (values : list token) :
  __init__ mmh3_hash gt gh None indexes hashfuncs = Ok s0 ->
  0 < N s0 ->
  exists s, add_all mmh3_hash values s0 = (Ok tt, s) /\ wf s /\ same_frame s0 s.
Proof.
  intros Hinit HN. pose proof (init_wf _ _ _ _ _ _ Hinit HN) as Hwf.
  clear Hinit HN. revert s0 Hwf.
  induction values as [|val values IH]; intros s0 Hwf.
  - exists s0. split; [reflexivity|]. split; [exact Hwf | repeat split].
  - destruct (add_spec mmh3_hash val s0 Hwf) as (s1 & Hrun & Hwf1 & Hf1 & _).
    destruct (IH s1 Hwf1) as (s & Hrest & Hwf2 & Hf2).
    exists s. unfold add_all in *. simpl. unfold bind. rewrite Hrun.
    split; [exact Hrest|]. split; [exact Hwf2|].
    destruct Hf1 as (a1 & a2 & a3 & a4 & a5), Hf2 as (b1 & b2 & b3 & b4 & b5).
    repeat split; congruence.
Qed.

(** ** Determinism *)

Section Determinism.

Variable mmh3_hash : token -> Z -> Z.

Lemma for_each_lockstep {S B} (R : S -> S -> Prop) (body : B -> py S unit) :
  (forall x s1 s2, R s1 s2 ->
     fst (body x s1) = fst (body x s2) /\ R (snd (body x s1)) (snd (body x s2))) ->
  forall xs s1 s2, R s1 s2 ->
    fst (for_each xs body s1) = fst (for_each xs body s2) /\
    R (snd (for_each xs body s1)) (snd (for_each xs body s2)).
Proof.
  intros Hbody xs. induction xs as [|x xs IH]; intros s1 s2 HR; simpl.
  - split; [reflexivity | exact HR].
  - unfold bind. destruct (Hbody x s1 s2 HR) as [Hfst Hsnd].
    destruct (body x s1) as [[[]|e1] s1'], (body x s2) as [[[]|e2] s2'];
      simpl in *; try discriminate.
    + apply IH. exact Hsnd.
    + split; [exact Hfst | exact Hsnd].
Qed.

Lemma add_row_lockstep (val : token) (ix : Z) (a b : sketch) :
  same_inputs a b ->
  fst (add_row mmh3_hash val ix a) = fst (add_row mmh3_hash val ix b) /\
  same_inputs (snd (add_row mmh3_hash val ix a)) (snd (add_row mmh3_hash val ix b)).
Proof.
  intros (HN & HM & Hh & Ht).
  unfold add_row, bind, get_self, lift, put_self, hash_fn.
  rewrite Hh, HN, Ht.
  destruct (list_getitem (hashes b) ix) as [h|e]; [|repeat split; assumption].
  destruct (mod_ (mmh3_hash val (seed_of h)) (N b)) as [c|e]; [|repeat split; assumption].
  destruct (Np.getitem (table b) ix c) as [v|e]; [|repeat split; assumption].
  destruct (Np.setitem (table b) ix c (v + 1)) as [t'|e]; [|repeat split; assumption].
  repeat split; assumption.
Qed.

Lemma add_lockstep (val : token) (a b : sketch) :
  same_inputs a b ->
  fst (add mmh3_hash val a) = fst (add mmh3_hash val b) /\
  same_inputs (snd (add mmh3_hash val a)) (snd (add mmh3_hash val b)).
Proof.
  intros Hab. unfold add, bind, get_self.
  destruct Hab as (HN & HM & Hh & Ht). rewrite HM.
  apply (for_each_lockstep same_inputs).
  - intros ix s1 s2. apply add_row_lockstep.
  - repeat split; assumption.
Qed.

Lemma add_all_lockstep (values : list token) (a b : sketch) :
  same_inputs a b ->
  fst (add_all mmh3_hash values a) = fst (add_all mmh3_hash values b) /\
  same_inputs (snd (add_all mmh3_hash values a)) (snd (add_all mmh3_hash values b)).
Proof.
  apply (for_each_lockstep same_inputs). intros val s1 s2. apply add_lockstep.
Qed.

End Determinism.

(** C8. Two instances constructed with the same dimensions, hence the same
    seeds [0 .. M-1], possibly in environments that report different object
    sizes, and fed the same tokens in the same order, behave alike and end
    with equal tables; so does an instance that received the tokens through
    the constructor's bulk load. Equal tables are equal cell for cell. *)
Theorem same_seeds_and_tokens_give_equal_tables
    (mmh3_hash : token -> Z -> Z)
    (gt1 gt2 gt3 : Np.ndarray -> Z) (gh1 gh2 gh3 : list closure -> Z)
    (indexes hashfuncs : pyarg) (a0 b0 : sketch) (values : list token) :
  __init__ mmh3_hash gt1 gh1 None indexes hashfuncs = Ok a0 ->
  __init__ mmh3_hash gt2 gh2 None indexes hashfuncs = Ok b0 ->
  let a := add_all mmh3_hash values a0 in
  let b := add_all mmh3_hash values b0 in
  fst a = fst b /\
  table (snd a) = table (snd b) /\
  (forall j k, Np.cell (table (snd a)) j k = Np.cell (table (snd b)) j k) /\
  (forall c, __init__ mmh3_hash gt3 gh3 (Some values) indexes hashfuncs = Ok c ->
             table c = table (snd a)).
Proof.
  intros Ha Hb a b.
  destruct (init_fresh _ _ _ _ _ _ Ha) as (n & m & ta & Hi & Hh & _ & _ & Hta & Ea).
  destruct (init_fresh _ _ _ _ _ _ Hb) as (n2 & m2 & tb & Hi2 & Hh2 & _ & _ & Htb & Eb).
  assert (n2 = n) as -> by congruence. assert (m2 = m) as -> by congruence.
  assert (tb = ta) as -> by congruence.
  assert (Hab : same_inputs a0 b0) by (subst a0 b0; repeat split).
  destruct (add_all_lockstep mmh3_hash values a0 b0 Hab) as (Hfst & _ & _ & _ & Htab).
  split; [exact Hfst|]. split; [exact Htab|]. split.
  - intros j k. subst a b. rewrite Htab. reflexivity.
  - intros c Hc. destruct (init_bulk _ _ _ _ _ _ _ Hc) as (c0 & Hc0 & Hrun).
    destruct (init_fresh _ _ _ _ _ _ Hc0) as (n3 & m3 & tc & Hi3 & Hh3 & _ & _ & Htc & Ec).
    assert (n3 = n) as -> by congruence. assert (m3 = m) as -> by congruence.
    assert (tc = ta) as -> by congruence.
    assert (Hca : same_inputs c0 a0) by (subst c0 a0; repeat split).
    destruct (add_all_lockstep mmh3_hash values c0 a0 Hca) as (_ & _ & _ & _ & Htab2).
    rewrite Hrun in Htab2. exact Htab2.
Qed.

Lemma same_seeds_and_tokens_give_equal_tables_witness :
  Examples.new None 4 2 = Ok Examples.fresh /\
  __init__ Mmh3.hash (fun _ => 0) (fun _ => 0) None (PyInt 4) (PyInt 2)
    = Ok Examples.fresh_unsized /\
  let values := [Examples.bytes "ACGT"; Examples.bytes "TTTT"; Examples.bytes "ACGT"] in
  let a := add_all Mmh3.hash values Examples.fresh in
  let b := add_all Mmh3.hash values Examples.fresh_unsized in
  fst a = fst b /\
  table (snd a) = table (snd b) /\
  (forall j k, Np.cell (table (snd a)) j k = Np.cell (table (snd b)) j k) /\
  (forall c, Examples.new (Some values) 4 2 = Ok c -> table c = table (snd a)).
Proof.
  split; [reflexivity|]. split; [reflexivity|].
  apply (same_seeds_and_tokens_give_equal_tables Mmh3.hash
           Examples.getsizeof_table (fun _ => 0) Examples.getsizeof_table
           Examples.getsizeof_hashes (fun _ => 0) Examples.getsizeof_hashes
           (PyInt 4) (PyInt 2) Examples.fresh Examples.fresh_unsized);
    reflexivity.
Defined.

(** ** float64 products and sums inside the exact range *)

Section Float64.

Lemma pow2_53 : 2 ^ 53 = 9007199254740992.
Proof. reflexivity. Qed.

Lemma round64_exact (x : Z) : Z.abs x <= 2 ^ 53 -> Np.round64 x = x.
Proof. intros Hx. unfold Np.round64. destruct (Z.leb_spec (Z.abs x) (2 ^ 53)); [reflexivity | lia]. Qed.

Lemma round64_nonneg (x : Z) : 0 <= x -> 0 <= Np.round64 x.
Proof.
  intros Hx. unfold Np.round64.
  destruct (Z.leb_spec (Z.abs x) (2 ^ 53)) as [_|Hbig]; [exact Hx|].
  assert (Hpos : 0 < x) by (pose proof pow2_53; lia).
  rewrite (Z.sgn_pos x Hpos), Z.mul_1_l.
  assert (H2 : 0 < 2 ^ (Z.log2 (Z.abs x) - 52)).
  { apply Z.pow_pos_nonneg; [lia|].
    assert (53 <= Z.log2 (Z.abs x)); [|lia].
    apply Z.log2_le_pow2; lia. }
  assert (Hq : 0 <= Z.abs x / 2 ^ (Z.log2 (Z.abs x) - 52)) by (apply Z.div_pos; lia).
  apply Z.mul_nonneg_nonneg; [|lia].
  destruct (_ || _); lia.
Qed.

Lemma fadd_exact (a b : Z) : 0 <= a -> 0 <= b -> a + b <= 2 ^ 53 -> Np.fadd a b = a + b.
Proof. intros Ha Hb Hab. apply round64_exact. lia. Qed.

Lemma fadd_nonneg (a b : Z) : 0 <= a -> 0 <= b -> 0 <= Np.fadd a b.
Proof. intros Ha Hb. apply round64_nonneg. lia. Qed.

Lemma fmul_exact (a b : Z) : 0 <= a * b <= 2 ^ 53 -> Np.fmul a b = a * b.
Proof. intros Hab. apply round64_exact. lia. Qed.

Lemma fmul_nonneg (a b : Z) : 0 <= a -> 0 <= b -> 0 <= Np.fmul a b.
Proof. intros Ha Hb. apply round64_nonneg. apply Z.mul_nonneg_nonneg; assumption. Qed.

Lemma fmul_comm (a b : Z) : Np.fmul a b = Np.fmul b a.
Proof. unfold Np.fmul. rewrite Z.mul_comm. reflexivity. Qed.

Lemma total_nonneg (l : list Z) : Forall (fun v => 0 <= v) l -> 0 <= Counting.total l.
Proof. unfold Counting.total. induction 1; simpl; lia. Qed.

Lemma total_app (l k : list Z) :
  Counting.total (l ++ k) = Counting.total l + Counting.total k.
Proof. unfold Counting.total. induction l as [|x l IH]; simpl; lia. Qed.

Lemma total_take_drop (n : nat) (l : list Z) :
  Counting.total (take n l) + Counting.total (drop n l) = Counting.total l.
Proof. rewrite <- total_app, take_drop. reflexivity. Qed.

Lemma total_ge_elem (l : list Z) (x : Z) :
  Forall (fun v => 0 <= v) l -> x ∈ l -> x <= Counting.total l.
Proof.
  intros Hl Hx. induction Hl as [|y l Hy Hl IH]; [inversion Hx|].
  pose proof (total_nonneg l Hl) as Ht. unfold Counting.total in *. simpl.
  apply elem_of_cons in Hx as [->|Hx]; [lia|]. specialize (IH Hx). lia.
Qed.

(** *** Whatever is kept by float64 addition is kept by the whole sum *)

Variable P : Z -> Prop.
Hypothesis P_zero : P 0.
Hypothesis P_fadd : forall a b, P a -> P b -> P (Np.fadd a b).

Lemma sum_loop_closed (l : list Z) :
  forall res, P res -> Forall P l -> P (Np.sum_loop res l).
Proof.
  unfold Np.sum_loop. induction l as [|x l IH]; intros res Hres Hl; simpl; [exact Hres|].
  inversion Hl; subst. apply IH; [apply P_fadd|]; assumption.
Qed.

Lemma zip_fadd_closed (r c : list Z) :
  Forall P r -> Forall P c -> Forall P (zip_with Np.fadd r c).
Proof.
  intros Hr. revert c. induction Hr as [|x r Hx Hr IH]; intros c Hc; simpl; [constructor|].
  destruct Hc as [|y c Hy Hc]; constructor; [apply P_fadd; assumption | apply IH; exact Hc].
Qed.

Lemma accumulate_closed (blocks : nat) :
  forall r l, Forall P r -> Forall P l ->
    Forall P (fst (Np.accumulate blocks r l)) /\ Forall P (snd (Np.accumulate blocks r l)).
Proof.
  induction blocks as [|blocks IH]; intros r l Hr Hl; simpl; [auto|].
  apply IH; [apply zip_fadd_closed; [exact Hr | apply Forall_take; exact Hl]
            | apply Forall_drop; exact Hl].
Qed.

Lemma combine8_closed (r : list Z) : Forall P r -> P (Np.combine8 r).
Proof.
  intros Hr. unfold Np.combine8.
  repeat (destruct r as [|? r]; [exact P_zero|]).
  destruct r; [|exact P_zero].
  repeat match goal with H : Forall P (_ :: _) |- _ => inversion H; subst; clear H end.
  repeat apply P_fadd; assumption.
Qed.

Lemma sum_block_closed (l : list Z) : Forall P l -> P (Np.sum_block l).
Proof.
  intros Hl. unfold Np.sum_block.
  destruct (accumulate_closed (length l / 8 - 1) (take 8 l) (drop 8 l)) as [Hr Hrest];
    [apply Forall_take; exact Hl | apply Forall_drop; exact Hl |].
  destruct (Np.accumulate _ _ _) as [r rest]. simpl in *.
  apply sum_loop_closed; [apply combine8_closed; exact Hr | exact Hrest].
Qed.

Lemma pairwise_sum_closed (fuel : nat) :
  forall l, Forall P l -> P (Np.pairwise_sum fuel l).
Proof.
  induction fuel as [|fuel IH]; intros l Hl; cbn [Np.pairwise_sum].
  - destruct (length l <? 8)%nat; [apply sum_loop_closed; [exact P_zero | exact Hl]|].
    destruct (length l <=? 128)%nat; apply sum_block_closed; exact Hl.
  - destruct (length l <? 8)%nat; [apply sum_loop_closed; [exact P_zero | exact Hl]|].
    destruct (length l <=? 128)%nat; [apply sum_block_closed; exact Hl|].
    apply P_fadd; apply IH; [apply Forall_take | apply Forall_drop]; exact Hl.
Qed.

Lemma add_reduce_closed (l : list Z) : Forall P l -> P (Np.add_reduce l).
Proof.
  intros Hl. unfold Np.add_reduce. apply P_fadd; [exact P_zero|].
  apply pairwise_sum_closed. exact Hl.
Qed.

End Float64.

(** A row without negative numbers has no negative sum. *)
Lemma add_reduce_nonneg (l : list Z) :
  Forall (fun v => 0 <= v) l -> 0 <= Np.add_reduce l.
Proof.
  apply (add_reduce_closed (fun v => 0 <= v)); [lia|].
  intros a b. apply fadd_nonneg.
Qed.

(** *** Inside the exact range nothing is rounded *)

Section ExactSums.

Lemma sum_loop_exact (l : list Z) :
  forall res,
    0 <= res -> Forall (fun v => 0 <= v) l -> res + Counting.total l <= 2 ^ 53 ->
    Np.sum_loop res l = res + Counting.total l.
Proof.
  unfold Np.sum_loop, Counting.total.
  induction l as [|x l IH]; intros res Hres Hl Hb; simpl in *; [lia|].
  inversion Hl as [|? ? Hx Hl']; subst.
  pose proof (total_nonneg l Hl') as Ht. unfold Counting.total in Ht.
  rewrite (fadd_exact res x) by lia. rewrite IH by (try assumption; lia). lia.
Qed.

Lemma zip_fadd_exact (r : list Z) :
  forall c,
    length r = length c ->
    Forall (fun v => 0 <= v) r -> Forall (fun v => 0 <= v) c ->
    Counting.total r + Counting.total c <= 2 ^ 53 ->
    Forall (fun v => 0 <= v) (zip_with Np.fadd r c) /\
    Counting.total (zip_with Np.fadd r c) = Counting.total r + Counting.total c.
Proof.
  induction r as [|x r IH]; intros [|y c] Hlen Hr Hc Hb; simpl in *; try discriminate.
  - split; [constructor | reflexivity].
  - inversion Hr as [|? ? Hx Hr']; inversion Hc as [|? ? Hy Hc']; subst.
    pose proof (total_nonneg r Hr') as Htr. pose proof (total_nonneg c Hc') as Htc.
    unfold Counting.total in *. simpl in *.
    destruct (IH c) as [Hnn Htot]; try assumption; try lia.
    rewrite (fadd_exact x y) by lia.
    split; [constructor; [lia | exact Hnn] | rewrite Htot; lia].
Qed.

Lemma accumulate_exact (blocks : nat) :
  forall r l,
    length r = 8%nat -> (8 * blocks <= length l)%nat ->
    Forall (fun v => 0 <= v) r -> Forall (fun v => 0 <= v) l ->
    Counting.total r + Counting.total l <= 2 ^ 53 ->
    length (fst (Np.accumulate blocks r l)) = 8%nat /\
    Forall (fun v => 0 <= v) (fst (Np.accumulate blocks r l)) /\
    Forall (fun v => 0 <= v) (snd (Np.accumulate blocks r l)) /\
    Counting.total (fst (Np.accumulate blocks r l))
    + Counting.total (snd (Np.accumulate blocks r l))
    = Counting.total r + Counting.total l.
Proof.
  induction blocks as [|blocks IH]; intros r l Hlen Hblocks Hr Hl Hb; simpl; [auto|].
  assert (Htake : length (take 8 l) = 8%nat) by (rewrite length_take; lia).
  pose proof (total_take_drop 8 l) as Hsplit.
  pose proof (total_nonneg _ (Forall_drop _ 8 _ Hl)) as Hdrop.
  pose proof (total_nonneg _ (Forall_take _ 8 _ Hl)) as Htk.
  destruct (zip_fadd_exact r (take 8 l)) as [Hnn Htot];
    [lia | exact Hr | apply Forall_take; exact Hl | lia |].
  destruct (IH (zip_with Np.fadd r (take 8 l)) (drop 8 l)) as (H1 & H2 & H3 & H4).
  - rewrite length_zip_with. lia.
  - rewrite length_drop. lia.
  - exact Hnn.
  - apply Forall_drop. exact Hl.
  - lia.
  - split; [exact H1|]. split; [exact H2|]. split; [exact H3|]. lia.
Qed.

Lemma combine8_exact (r : list Z) :
  length r = 8%nat -> Forall (fun v => 0 <= v) r -> Counting.total r <= 2 ^ 53 ->
  Np.combine8 r = Counting.total r.
Proof.
  intros Hlen Hr Hb.
  do 8 (destruct r as [|? r]; [discriminate|]). destruct r; [|discriminate].
  repeat match goal with H : Forall _ (_ :: _) |- _ => inversion H; subst; clear H end.
  unfold Np.combine8, Counting.total in *. simpl in *.
  rewrite (fadd_exact z z0) by lia. rewrite (fadd_exact z1 z2) by lia.
  rewrite (fadd_exact z3 z4) by lia. rewrite (fadd_exact z5 z6) by lia.
  rewrite (fadd_exact (z + z0)) by lia. rewrite (fadd_exact (z3 + z4)) by lia.
  rewrite fadd_exact by lia. lia.
Qed.

Lemma sum_block_exact (l : list Z) :
  (8 <= length l)%nat -> Forall (fun v => 0 <= v) l -> Counting.total l <= 2 ^ 53 ->
  Np.sum_block l = Counting.total l.
Proof.
  intros Hlen Hl Hb. unfold Np.sum_block.
  pose proof (total_take_drop 8 l) as Hsplit.
  destruct (accumulate_exact (length l / 8 - 1) (take 8 l) (drop 8 l))
    as (H1 & H2 & H3 & H4).
  - rewrite length_take. lia.
  - rewrite length_drop. pose proof (Nat.div_mod_eq (length l) 8). lia.
  - apply Forall_take. exact Hl.
  - apply Forall_drop. exact Hl.
  - lia.
  - destruct (Np.accumulate _ _ _) as [r rest]. simpl in *.
    pose proof (total_nonneg r H2) as Hr. pose proof (total_nonneg rest H3) as Hrest.
    rewrite (combine8_exact r H1 H2) by lia.
    rewrite sum_loop_exact by (try assumption; lia). lia.
Qed.

Lemma pairwise_sum_exact (fuel : nat) :
  forall l,
    Forall (fun v => 0 <= v) l -> Counting.total l <= 2 ^ 53 ->
    Np.pairwise_sum fuel l = Counting.total l.
Proof.
  induction fuel as [|fuel IH]; intros l Hl Hb; cbn [Np.pairwise_sum].
  - destruct (Nat.ltb_spec (length l) 8).
    + rewrite sum_loop_exact by (try assumption; lia). lia.
    + destruct (length l <=? 128)%nat; apply sum_block_exact; assumption.
  - destruct (Nat.ltb_spec (length l) 8).
    + rewrite sum_loop_exact by (try assumption; lia). lia.
    + destruct (length l <=? 128)%nat; [apply sum_block_exact; assumption|].
      set (n2 := (length l / 2 - (length l / 2) mod 8)%nat).
      pose proof (total_take_drop n2 l) as Hsplit.
      pose proof (total_nonneg _ (Forall_take _ n2 _ Hl)) as Htk.
      pose proof (total_nonneg _ (Forall_drop _ n2 _ Hl)) as Hdr.
      rewrite (IH (take n2 l)) by (try apply Forall_take; try assumption; lia).
      rewrite (IH (drop n2 l)) by (try apply Forall_drop; try assumption; lia).
      rewrite fadd_exact by lia. lia.
Qed.

End ExactSums.

(** Numbers that are not negative and whose total is at most 2^53 are
    added without any rounding, whatever the order of the additions. *)
Lemma add_reduce_exact (l : list Z) :
  Forall (fun v => 0 <= v) l -> Counting.total l <= 2 ^ 53 ->
  Np.add_reduce l = Counting.total l.
Proof.
  intros Hl Hb. unfold Np.add_reduce.
  rewrite pairwise_sum_exact by assumption.
  pose proof (total_nonneg l Hl). apply fadd_exact; lia.
Qed.

(** ** Inner product *)

Section InnerProduct.

Lemma bidx_inrange (len i : nat) : (i < len)%nat -> Np.bidx len i = i.
Proof. unfold Np.bidx. destruct (Nat.eqb_spec len 1); lia. Qed.

Lemma broadcast_dim_same (d : nat) : Np.broadcast_dim d d = Some d.
Proof. unfold Np.broadcast_dim. rewrite Nat.eqb_refl. reflexivity. Qed.

(** The running minimum is one of the values and is below all of them. *)
Lemma foldl_min_spec (l : list Z) (x : Z) :
  foldl Z.min x l ∈ x :: l /\ forall y, y ∈ x :: l -> foldl Z.min x l <= y.
Proof.
  revert x. induction l as [|z l IH]; intros x; simpl.
  - split; [left|]. intros y Hy. apply list_elem_of_singleton in Hy. lia.
  - destruct (IH (Z.min x z)) as [Hin Hle]. split.
    + apply elem_of_cons in Hin as [Heq|Hin].
      * rewrite Heq.
        destruct (Z.min_spec x z) as [[_ ->]|[_ ->]]; [left | right; left].
      * right; right. exact Hin.
    + intros y Hy.
      assert (Hm : foldl Z.min (Z.min x z) l <= Z.min x z) by (apply Hle; left).
      apply elem_of_cons in Hy as [->|Hy]; [lia|].
      apply elem_of_cons in Hy as [->|Hy]; [lia|].
      apply Hle. right. exact Hy.
Qed.

Lemma np_min_spec (v : list Z) (m : Z) :
  Np.min v = Ok m -> m ∈ v /\ forall y, y ∈ v -> m <= y.
Proof.
  destruct v as [|x v]; simpl; [discriminate|]. intros [= <-]. apply foldl_min_spec.
Qed.

Lemma np_min_rows (d : nat) (f : nat -> Z) :
  (0 < d)%nat ->
  exists m, Np.min (f <$> seq 0 d) = Ok m /\ Spec.is_min_over d f m.
Proof.
  intros Hd. destruct d as [|d]; [lia|].
  destruct (Np.min (f <$> seq 0 (S d))) as [m|e] eqn:Hmin; [|discriminate].
  exists m. split; [reflexivity|].
  destruct (np_min_spec _ _ Hmin) as [Hin Hle]. split.
  - apply list_elem_of_fmap in Hin as (j & -> & Hj). apply elem_of_seq in Hj.
    exists j. split; [lia | reflexivity].
  - intros j Hj. apply Hle. apply list_elem_of_fmap. exists j.
    split; [reflexivity|]. apply elem_of_seq. lia.
Qed.

(** With equal shapes nothing is broadcast; when no product is negative
    and no row-wise dot product passes 2^53, no product and no partial sum is
    rounded, and the row sums of the product array are the row-wise dot
    products. *)
Lemma mul_row_sums_exact (A B : Np.ndarray) (d w : nat) :
  Np.nrows A = d -> Np.nrows B = d -> Np.ncols A = w -> Np.ncols B = w ->
  (forall j k, (j < d)%nat -> (k < w)%nat -> 0 <= Np.cell A j k * Np.cell B j k) ->
  (forall j, (j < d)%nat -> Spec.row_dot A B w j <= 2 ^ 53) ->
  exists p, Np.mul A B = Ok p /\
            Np.sum_axis1 p = Spec.row_dot A B w <$> seq 0 d.
Proof.
  intros HrA HrB HcA HcB Hnn Hb. unfold Np.mul.
  rewrite HrA, HrB, HcA, HcB, !broadcast_dim_same.
  eexists. split; [reflexivity|].
  unfold Np.sum_axis1. simpl. rewrite <- list_fmap_compose.
  apply list_fmap_ext. intros i x Hx. apply lookup_seq in Hx as [-> Hi]. simpl.
  rewrite (bidx_inrange d i Hi).
  set (products := (fun k => Np.cell A i k * Np.cell B i k) <$> seq 0 w).
  assert (Htot : Counting.total products = Spec.row_dot A B w i).
  { unfold Counting.total, products. rewrite foldr_fmap. reflexivity. }
  assert (Hpos : Forall (fun v => 0 <= v) products).
  { apply Forall_fmap, Forall_forall. intros k Hk. apply elem_of_seq in Hk. simpl.
    apply Hnn; lia. }
  rewrite (list_fmap_ext _ (fun k => Np.cell A i k * Np.cell B i k)).
  - fold products. rewrite add_reduce_exact; [exact Htot | exact Hpos |].
    rewrite Htot. apply Hb. exact Hi.
  - intros k y Hy. apply lookup_seq in Hy as [-> Hk]. simpl.
    rewrite (bidx_inrange w k Hk). apply fmul_exact.
    split; [apply Hnn; assumption|].
    transitivity (Counting.total products); [|rewrite Htot; apply Hb; exact Hi].
    apply total_ge_elem; [exact Hpos|].
    apply list_elem_of_fmap. exists k. split; [reflexivity|]. apply elem_of_seq. lia.
Qed.

End InnerProduct.

(** A one-row, one-column sketch sends every token to its only cell:
    feeding it [n] tokens raises the count by [n], whatever the hash
    function returns. *)
Lemma one_cell_add (mmh3_hash : token -> Z -> Z) (t : token) (v : Z) :
  add mmh3_hash t (Examples.one_cell v) = (Ok tt, Examples.one_cell (v + 1)).
Proof.
  assert (Hh : forall h, hash_fn mmh3_hash (Examples.one_cell v) h t = Ok 0).
  { intros h. unfold hash_fn, mod_. change (N (Examples.one_cell v)) with 1.
    rewrite Z.mod_1_r. reflexivity. }
  unfold add, add_row, bind, get_self, lift.
  change (range 0 (M (Examples.one_cell v))) with [0]. cbn [for_each].
  unfold bind. cbv beta.
  change (list_getitem (hashes (Examples.one_cell v)) 0) with (Ok (HashFn 0)).
  cbv iota beta. rewrite Hh. reflexivity.
Qed.

Lemma one_cell_add_all (mmh3_hash : token -> Z -> Z) (t : token) (n : nat) :
  forall v,
    add_all mmh3_hash (replicate n t) (Examples.one_cell v)
    = (Ok tt, Examples.one_cell (v + Z.of_nat n)).
Proof.
  induction n as [|n IH]; intros v.
  - cbn [replicate]. replace (v + Z.of_nat 0) with v by lia. reflexivity.
  - cbn [replicate]. unfold add_all. cbn [for_each]. unfold bind at 1.
    rewrite one_cell_add. fold (add_all mmh3_hash (replicate n t)).
    rewrite IH. do 2 f_equal. lia.
Qed.

(** C3 (fails as stated). The table is float64, so the products and the
    row sums of the estimator are rounded once they pass 2^53. A one-row,
    one-column sketch that has counted 94906267 tokens, which is what 94906267
    calls of [add] leave of the empty one, has the row-wise dot product
    94906267 * 94906267 = 9007199515875289 with itself, but the estimate that
    comes back is 9007199515875288. *)
Lemma dot_product_is_rounded_above_2_53 :
  let A := Examples.one_cell 94906267 in
  (forall t : token,
     add_all Mmh3.hash (replicate (Z.to_nat 94906267) t) (Examples.one_cell 0)
     = (Ok tt, A)) /\
  Np.nrows (table A) = 1%nat /\ Np.ncols (table A) = 1%nat /\
  Spec.is_min_over 1 (Spec.row_dot (table A) (table A) 1) 9007199515875289 /\
  BinaryClassification._dotProduct (table A) (table A) = Ok 9007199515875288 /\
  classifier._dotProduct (table A) (table A) = Ok 9007199515875288.
Proof.
  split.
  { intros t. rewrite one_cell_add_all, Z2Nat.id by lia. reflexivity. }
  split; [reflexivity|]. split; [reflexivity|]. split.
  - split.
    + exists 0%nat. split; [lia | reflexivity].
    + intros j Hj. assert (j = 0%nat) as -> by lia. vm_compute. discriminate.
  - split; vm_compute; reflexivity.
Qed.

(** C3 (as the code has it). For two sketches whose tables both have [d]
    rows and [w] columns, with at least one row, whose cells are not negative
    and whose row-wise dot products are all at most 2^53, the inner-product
    estimate of [BinaryClassification] and of [classifier] is defined, is the
    same for both, and is the minimum over the rows [j] of the row-wise dot
    product [sum over k of A.table[j,k] * B.table[j,k]]. *)
Theorem dot_product_is_the_minimum_row_dot_in_the_exact_range
    (A B : sketch) (d w : nat) :
  Np.nrows (table A) = d -> Np.ncols (table A) = w ->
  Np.nrows (table B) = d -> Np.ncols (table B) = w ->
  (0 < d)%nat ->
  Np.cells_nonneg (table A) -> Np.cells_nonneg (table B) ->
  (forall j, (j < d)%nat -> Spec.row_dot (table A) (table B) w j <= 2 ^ 53) ->
  exists m,
    BinaryClassification._dotProduct (table A) (table B) = Ok m /\
    classifier._dotProduct (table A) (table B) = Ok m /\
    Spec.is_min_over d (Spec.row_dot (table A) (table B) w) m.
Proof.
  intros HrA HcA HrB HcB Hd HA HB Hrange.
  destruct (mul_row_sums_exact (table A) (table B) d w HrA HrB HcA HcB)
    as (p & Hmul & Hsums).
  { intros j k _ _. apply Z.mul_nonneg_nonneg; [apply HA | apply HB]. }
  { exact Hrange. }
  destruct (np_min_rows d (Spec.row_dot (table A) (table B) w) Hd) as (m & Hmin & Hspec).
  exists m.
  unfold BinaryClassification._dotProduct, classifier._dotProduct.
  rewrite Hmul. simpl. rewrite Hsums, Hmin. auto.
Qed.

Lemma two_by_four_nonneg : Np.cells_nonneg (table Examples.two_by_four).
Proof. intros [|[|i]] [|[|[|[|k]]]]; vm_compute; discriminate. Defined.

Lemma three_by_four_nonneg : Np.cells_nonneg (table Examples.three_by_four).
Proof. intros [|[|[|i]]] [|[|[|[|k]]]]; vm_compute; discriminate. Defined.

Lemma dot_product_is_the_minimum_row_dot_in_the_exact_range_witness :
  (0 < 2)%nat /\
  Np.cells_nonneg (table Examples.two_by_four) /\
  (forall j, (j < 2)%nat ->
     Spec.row_dot (table Examples.two_by_four) (table Examples.two_by_four) 4 j <= 2 ^ 53) /\
  Spec.row_dot (table Examples.two_by_four) (table Examples.two_by_four) 4 0 = 10 /\
  Spec.row_dot (table Examples.two_by_four) (table Examples.two_by_four) 4 1 = 8 /\
  exists m,
    BinaryClassification._dotProduct
      (table Examples.two_by_four) (table Examples.two_by_four) = Ok m /\
    classifier._dotProduct
      (table Examples.two_by_four) (table Examples.two_by_four) = Ok m /\
    Spec.is_min_over 2
      (Spec.row_dot (table Examples.two_by_four) (table Examples.two_by_four) 4) m.
Proof.
  assert (Hrange : forall j, (j < 2)%nat ->
            Spec.row_dot (table Examples.two_by_four) (table Examples.two_by_four) 4 j
            <= 2 ^ 53).
  { intros [|[|j]] Hj; [vm_compute; discriminate | vm_compute; discriminate | lia]. }
  split; [lia|]. split; [exact two_by_four_nonneg|]. split; [exact Hrange|].
  split; [reflexivity|]. split; [reflexivity|].
  apply (dot_product_is_the_minimum_row_dot_in_the_exact_range
           Examples.two_by_four Examples.two_by_four 2 4);
    solve [reflexivity | lia | exact two_by_four_nonneg | exact Hrange].
Defined.

Example dot_product_two_by_four :
  BinaryClassification._dotProduct (table Examples.two_by_four) (table Examples.two_by_four)
    = Ok 8.
Proof. reflexivity. Qed.

(** Without rows there is no minimum: numpy refuses the reduction. *)
Example dot_product_no_rows :
  exists a, Examples.new None 4 0 = Ok a /\
            BinaryClassification._dotProduct (table a) (table a) = Raise ValueError.
Proof. eexists. split; reflexivity. Qed.

(** C5 (fails as stated). The estimator contains no check of its own, and
    numpy broadcasts a dimension of size one. A one-row sketch and a two-row
    sketch of the same width, both built by the constructor, have different
    dimensions, yet the estimate is computed and returned. *)
Lemma mismatched_dimensions_can_yield_an_estimate :
  let t := Examples.bytes "ACGT" in
  Examples.new (Some [t; t; t]) 1 1 = Ok (Examples.one_cell 3) /\
  Examples.new (Some [t; t]) 1 2 = Ok (Examples.two_rows 2) /\
  Np.nrows (table (Examples.one_cell 3)) <> Np.nrows (table (Examples.two_rows 2)) /\
  BinaryClassification._dotProduct
    (table (Examples.one_cell 3)) (table (Examples.two_rows 2)) = Ok 6 /\
  classifier._dotProduct
    (table (Examples.one_cell 3)) (table (Examples.two_rows 2)) = Ok 6.
Proof. repeat split; try reflexivity. simpl. lia. Qed.

Lemma broadcast_dim_compatible (m n : nat) :
  m = n \/ m = 1%nat \/ n = 1%nat ->
  exists r, Np.broadcast_dim m n = Some r /\ (r = 0%nat <-> m = 0%nat \/ n = 0%nat).
Proof.
  intros Hc. unfold Np.broadcast_dim.
  destruct (Nat.eqb_spec m n); [exists m; split; [reflexivity | lia]|].
  destruct (Nat.eqb_spec m 1); [exists n; split; [reflexivity | lia]|].
  destruct (Nat.eqb_spec n 1); [exists m; split; [reflexivity | lia]|].
  lia.
Qed.

(** C5 (as the code has it). The estimator has no dimension check of its
    own; what happens to tables of different dimensions is decided by numpy.
    - When the two tables cannot be broadcast against each other, that is,
      their row counts differ and neither is one, or their widths differ and
      neither is one, the elementwise product raises numpy's [ValueError] and
      no estimate is produced, in [BinaryClassification] and in [classifier]
      alike.
    - When on each axis the sizes are equal or one of them is one, and both
      tables have at least one row, the tables are broadcast and an estimate
      is returned.
    - When on each axis the sizes are equal or one of them is one, but one of
      the tables has no rows, the product is formed and the minimum over no
      rows raises [ValueError]. *)
Theorem dot_product_broadcasts_or_raises (A B : sketch) :
  ((Np.nrows (table A) <> Np.nrows (table B) /\
    Np.nrows (table A) <> 1%nat /\ Np.nrows (table B) <> 1%nat) \/
   (Np.ncols (table A) <> Np.ncols (table B) /\
    Np.ncols (table A) <> 1%nat /\ Np.ncols (table B) <> 1%nat) ->
   Np.mul (table A) (table B) = Raise ValueError /\
   BinaryClassification._dotProduct (table A) (table B) = Raise ValueError /\
   classifier._dotProduct (table A) (table B) = Raise ValueError) /\
  ((Np.nrows (table A) = Np.nrows (table B) \/
    Np.nrows (table A) = 1%nat \/ Np.nrows (table B) = 1%nat) ->
   (Np.ncols (table A) = Np.ncols (table B) \/
    Np.ncols (table A) = 1%nat \/ Np.ncols (table B) = 1%nat) ->
   (Np.nrows (table A) <> 0%nat -> Np.nrows (table B) <> 0%nat ->
    exists e,
      BinaryClassification._dotProduct (table A) (table B) = Ok e /\
      classifier._dotProduct (table A) (table B) = Ok e) /\
   (Np.nrows (table A) = 0%nat \/ Np.nrows (table B) = 0%nat ->
    (exists p, Np.mul (table A) (table B) = Ok p) /\
    BinaryClassification._dotProduct (table A) (table B) = Raise ValueError /\
    classifier._dotProduct (table A) (table B) = Raise ValueError)).
Proof.
  split.
  - intros Hshape.
    assert (Hmul : Np.mul (table A) (table B) = Raise ValueError).
    { unfold Np.mul, Np.broadcast_dim.
      destruct Hshape as [(Hne & HA & HB)|(Hne & HA & HB)].
      - destruct (Nat.eqb_spec (Np.nrows (table A)) (Np.nrows (table B))); [lia|].
        destruct (Nat.eqb_spec (Np.nrows (table A)) 1); [lia|].
        destruct (Nat.eqb_spec (Np.nrows (table B)) 1); [lia|]. reflexivity.
      - destruct (Nat.eqb_spec (Np.ncols (table A)) (Np.ncols (table B))); [lia|].
        destruct (Nat.eqb_spec (Np.ncols (table A)) 1); [lia|].
        destruct (Nat.eqb_spec (Np.ncols (table B)) 1); [lia|].
        repeat match goal with |- context [if ?b then _ else _] => destruct b end;
          reflexivity. }
    unfold BinaryClassification._dotProduct, classifier._dotProduct.
    rewrite Hmul. repeat split.
  - intros Hrows Hcols.
    destruct (broadcast_dim_compatible _ _ Hrows) as (r & Hr & Hr0).
    destruct (broadcast_dim_compatible _ _ Hcols) as (c & Hc & _).
    unfold BinaryClassification._dotProduct, classifier._dotProduct, Np.mul.
    rewrite Hr, Hc. simpl. unfold Np.sum_axis1. simpl. split.
    + intros HA HB. destruct r as [|r]; [lia|].
      rewrite <- cons_seq. simpl. eauto.
    + intros Hzero. apply Hr0 in Hzero as ->. simpl. eauto.
Qed.

Lemma dot_product_broadcasts_or_raises_witness :
  (Np.nrows (table (Examples.one_cell 3)) <> Np.nrows (table (Examples.two_rows 2)) /\
   exists e,
     BinaryClassification._dotProduct
       (table (Examples.one_cell 3)) (table (Examples.two_rows 2)) = Ok e /\
     classifier._dotProduct
       (table (Examples.one_cell 3)) (table (Examples.two_rows 2)) = Ok e) /\
  (Np.nrows (table Examples.no_rows) <> Np.nrows (table (Examples.one_cell 3)) /\
   (exists p, Np.mul (table Examples.no_rows) (table (Examples.one_cell 3)) = Ok p) /\
   BinaryClassification._dotProduct
     (table Examples.no_rows) (table (Examples.one_cell 3)) = Raise ValueError /\
   classifier._dotProduct
     (table Examples.no_rows) (table (Examples.one_cell 3)) = Raise ValueError) /\
  Np.mul (table Examples.two_by_four) (table Examples.three_by_four) = Raise ValueError /\
  BinaryClassification._dotProduct
    (table Examples.two_by_four) (table Examples.three_by_four) = Raise ValueError /\
  classifier._dotProduct
    (table Examples.two_by_four) (table Examples.three_by_four) = Raise ValueError.
Proof.
  split; [|split].
  - split; [simpl; lia|].
    apply (proj1 (proj2 (dot_product_broadcasts_or_raises
                           (Examples.one_cell 3) (Examples.two_rows 2))
                   ltac:(simpl; lia) ltac:(simpl; lia)));
      simpl; lia.
  - split; [simpl; lia|].
    apply (proj2 (proj2 (dot_product_broadcasts_or_raises
                           Examples.no_rows (Examples.one_cell 3))
                   ltac:(simpl; lia) ltac:(simpl; lia))).
    simpl. lia.
  - apply (proj1 (dot_product_broadcasts_or_raises
                    Examples.two_by_four Examples.three_by_four)).
    left. simpl. lia.
Defined.

Example no_rows_is_constructed : Examples.new None 1 0 = Ok Examples.no_rows.
Proof. reflexivity. Qed.

(** ** Classification *)

Lemma verdict_printed (x y : Z) (line verdict : string) :
  PrintLine line ∈ [PrintValue "x=" x; PrintValue "y=" y; PrintLine verdict]
  <-> line = verdict.
Proof.
  rewrite !elem_of_cons, elem_of_nil. split.
  - intros [H|[H|[H|[]]]]; try discriminate. congruence.
  - intros ->. tauto.
Qed.

(** C10. When both inner-product estimates of the subsketch are defined,
    [x] against stream A and [y] against stream B, [classify] prints the two
    values and one verdict: class A exactly when [x > y], class B otherwise;
    in particular equal estimates are reported as class B. *)
Theorem classify_reports_A_iff_strictly_greater
    (self : BinaryClassification.t) (subsketch : sketch) (x y : Z) :
  BinaryClassification._dotProduct
    (table subsketch) (table (BinaryClassification.streamA self)) = Ok x ->
  BinaryClassification._dotProduct
    (table subsketch) (table (BinaryClassification.streamB self)) = Ok y ->
  let out := snd (BinaryClassification.classify self subsketch) in
  out = [PrintValue "x=" x; PrintValue "y=" y;
         PrintLine (if x >? y then BinaryClassification.class_A
                    else BinaryClassification.class_B)] /\
  (PrintLine BinaryClassification.class_A ∈ out <-> x > y) /\
  (PrintLine BinaryClassification.class_B ∈ out <-> x <= y) /\
  (x = y -> PrintLine BinaryClassification.class_B ∈ out /\
            PrintLine BinaryClassification.class_A ∉ out).
Proof.
  intros Hx Hy out. subst out. unfold BinaryClassification.classify.
  rewrite Hx, Hy. simpl.
  assert (HAB : BinaryClassification.class_A <> BinaryClassification.class_B) by discriminate.
  destruct (Z.gtb_spec x y) as [Hgt|Hle];
    (split; [reflexivity|]); rewrite !verdict_printed.
  - split; [|split; [|split]]; try split; try tauto; try lia; try congruence.
  - split; [|split; [|split]]; try split; try tauto; try lia; try congruence.
Qed.

Lemma classify_reports_A_iff_strictly_greater_witness :
  let self := BinaryClassification.__init__ Examples.two_by_four Examples.two_by_four false in
  BinaryClassification._dotProduct
    (table Examples.two_by_four) (table (BinaryClassification.streamA self)) = Ok 8 /\
  BinaryClassification._dotProduct
    (table Examples.two_by_four) (table (BinaryClassification.streamB self)) = Ok 8 /\
  let out := snd (BinaryClassification.classify self Examples.two_by_four) in
  out = [PrintValue "x=" 8; PrintValue "y=" 8;
         PrintLine (if 8 >? 8 then BinaryClassification.class_A
                    else BinaryClassification.class_B)] /\
  (PrintLine BinaryClassification.class_A ∈ out <-> 8 > 8) /\
  (PrintLine BinaryClassification.class_B ∈ out <-> 8 <= 8) /\
  (8 = 8 -> PrintLine BinaryClassification.class_B ∈ out /\
            PrintLine BinaryClassification.class_A ∉ out).
Proof.
  intros self. split; [reflexivity|]. split; [reflexivity|].
  apply (classify_reports_A_iff_strictly_greater self Examples.two_by_four 8 8);
    reflexivity.
Defined.

Example classify_strictly_greater :
  BinaryClassification.classify
    (BinaryClassification.__init__ Examples.two_by_four Examples.fresh false)
    Examples.two_by_four
  = (Ok PyNone,
     [PrintValue "x=" 8; PrintValue "y=" 0; PrintLine BinaryClassification.class_A]).
Proof. reflexivity. Qed.

(** ** Constructor forms *)

Section Shape.

Variable mmh3_hash : token -> Z -> Z.

(** Dimensions and table shape, which no [add] changes. *)
Lemma add_all_keeps_shape (values : list token) (s : sketch) :
  let s' := snd (add_all mmh3_hash values s) in
  N s' = N s /\ M s' = M s /\ seeds s' = seeds s /\
  Np.nrows (table s') = Np.nrows (table s) /\
  Np.ncols (table s') = Np.ncols (table s).
Proof.
  set (R := fun s1 s2 : sketch =>
              N s2 = N s1 /\ M s2 = M s1 /\ seeds s2 = seeds s1 /\
              Np.nrows (table s2) = Np.nrows (table s1) /\
              Np.ncols (table s2) = Np.ncols (table s1)).
  assert (Hrefl : forall s, R s s) by (intros ?; repeat split).
  assert (Htrans : forall s1 s2 s3, R s1 s2 -> R s2 s3 -> R s1 s3).
  { intros s1 s2 s3 (a1 & a2 & a3 & a4 & a5) (b1 & b2 & b3 & b4 & b5).
    repeat split; congruence. }
  apply (for_each_related R); [exact Hrefl | exact Htrans |].
  intros val s1. unfold add, bind, get_self.
  apply (for_each_related R); [exact Hrefl | exact Htrans |].
  intros ix s2.
  destruct (add_row_cases mmh3_hash val ix s2) as [[e ->]|(i & k & ->)];
    simpl; repeat split.
Qed.

End Shape.

(** C4 (fails as stated). The constructor has no form that takes error
    parameters. Given the specification's own example, an error bound of 0.1
    and a failure probability of 0.05, it does not build a sketch of width 28
    and depth 3: the floats reach [np.zeros] as dimensions and the call
    raises [TypeError]. *)
Lemma error_parameters_are_not_a_constructor_form :
  __init__ Mmh3.hash Examples.getsizeof_table Examples.getsizeof_hashes None
    (PyFloat Examples.eps_tenth) (PyFloat Examples.delta_twentieth)
  = Raise TypeError /\
  ~ (exists s,
       __init__ Mmh3.hash Examples.getsizeof_table Examples.getsizeof_hashes None
         (PyFloat Examples.eps_tenth) (PyFloat Examples.delta_twentieth) = Ok s /\
       N s = 28 /\ M s = 3).
Proof.
  assert (H : __init__ Mmh3.hash Examples.getsizeof_table Examples.getsizeof_hashes None
                (PyFloat Examples.eps_tenth) (PyFloat Examples.delta_twentieth)
              = Raise TypeError) by reflexivity.
  split; [exact H|]. intros (s & Hs & _). rewrite H in Hs. discriminate.
Qed.

(** C4 (as the code has it). Construction takes explicit dimensions only,
    [CountMinSketch(seqlist, indexes, hashfuncs)].
    - For integers [w >= 0] and [d >= 0] it returns a sketch with [N = w],
      [M = d], seeds [0 .. d-1], one hash function per row and a well-formed
      [d] by [w] table of zeros.
    - Every sketch the constructor returns, bulk-loaded or not, was given
      integer dimensions and has exactly that width and depth; nothing is
      derived from an error bound.
    - A float is never accepted. A float [hashfuncs] raises [ValueError]
      (from [np.arange]) if it is nan or infinite, and [TypeError] (from
      [np.zeros]) if it is below [2^63] in magnitude, whatever [indexes] is;
      a float [indexes] beside an integer [hashfuncs] below [2^63] in
      magnitude raises [TypeError].
    - Arguments that are given are used as they are, and the call without
      arguments builds the default sketch of 8 rows and 256 columns. *)
Theorem constructor_takes_explicit_dimensions_only
    (mmh3_hash : token -> Z -> Z) (gt : Np.ndarray -> Z) (gh : list closure -> Z) :
  (forall w d, 0 <= w -> 0 <= d ->
     exists s, __init__ mmh3_hash gt gh None (PyInt w) (PyInt d) = Ok s /\
               N s = w /\ M s = d /\ seeds s = range 0 d /\
               length (hashes s) = Z.to_nat d /\
               Np.wf (table s) /\
               Np.nrows (table s) = Z.to_nat d /\ Np.ncols (table s) = Z.to_nat w /\
               forall j k, Np.cell (table s) j k = 0) /\
  (forall seqlist indexes hashfuncs s,
     __init__ mmh3_hash gt gh seqlist indexes hashfuncs = Ok s ->
     exists w d, indexes = PyInt w /\ hashfuncs = PyInt d /\
                 N s = w /\ M s = d /\ seeds s = range 0 d /\
                 Np.nrows (table s) = Z.to_nat d /\ Np.ncols (table s) = Z.to_nat w) /\
  (default_indexes = 256 /\ default_hashfuncs = 8) /\
  (forall seqlist indexes x,
     x = S754_nan \/ (exists sign, x = S754_infinity sign) ->
     __init__ mmh3_hash gt gh seqlist indexes (PyFloat x) = Raise ValueError) /\
  (forall seqlist indexes x,
     Np.fits_intp x = true ->
     __init__ mmh3_hash gt gh seqlist indexes (PyFloat x) = Raise TypeError) /\
  (forall seqlist x d,
     Z.abs d < 2 ^ 63 ->
     __init__ mmh3_hash gt gh seqlist (PyFloat x) (PyInt d) = Raise TypeError) /\
  (forall seqlist indexes hashfuncs,
     construct mmh3_hash gt gh seqlist (Some indexes) (Some hashfuncs)
     = __init__ mmh3_hash gt gh seqlist indexes hashfuncs) /\
  (exists s, construct mmh3_hash gt gh None None None = Ok s /\
             N s = 256 /\ M s = 8 /\
             Np.nrows (table s) = 8%nat /\ Np.ncols (table s) = 256%nat /\
             forall j k, Np.cell (table s) j k = 0).
Proof.
  assert (Hints : forall w d, 0 <= w -> 0 <= d ->
     exists s, __init__ mmh3_hash gt gh None (PyInt w) (PyInt d) = Ok s /\
               N s = w /\ M s = d /\ seeds s = range 0 d /\
               length (hashes s) = Z.to_nat d /\
               Np.wf (table s) /\
               Np.nrows (table s) = Z.to_nat d /\ Np.ncols (table s) = Z.to_nat w /\
               forall j k, Np.cell (table s) j k = 0).
  { intros w d Hw Hd.
    destruct (zeros_spec d w Hd Hw) as (a & Ha & Hwf & Hr & Hc & Hz).
    exists (Sketch w d (Np.arange d) a (_genhash <$> Np.arange d)
              (gt a + gh (_genhash <$> Np.arange d))).
    split.
    + unfold __init__. rewrite Ha. reflexivity.
    + simpl. repeat split; try assumption; try apply Hwf. apply hashes_length. }
  split; [exact Hints|].
  split.
  { assert (Hfresh : forall indexes hashfuncs s,
               __init__ mmh3_hash gt gh None indexes hashfuncs = Ok s ->
               exists w d, indexes = PyInt w /\ hashfuncs = PyInt d /\
                           N s = w /\ M s = d /\ seeds s = range 0 d /\
                           Np.nrows (table s) = Z.to_nat d /\
                           Np.ncols (table s) = Z.to_nat w).
    { intros indexes hashfuncs s Hs.
      destruct (init_fresh _ _ _ _ _ _ Hs) as (n & m & a & -> & -> & Hn & Hm & Ha & ->).
      destruct (zeros_spec m n Hm Hn) as (a' & Ha' & _ & Hr & Hc & _).
      assert (a' = a) as -> by congruence.
      exists n, m. simpl. repeat split; assumption. }
    intros [values|] indexes hashfuncs s Hs; [|exact (Hfresh _ _ _ Hs)].
    destruct (init_bulk _ _ _ _ _ _ _ Hs) as (s0 & Hs0 & Hrun).
    destruct (Hfresh _ _ _ Hs0) as (w & d & -> & -> & HN & HM & Hseeds & Hr & Hc).
    pose proof (add_all_keeps_shape mmh3_hash values s0) as Hkeep.
    rewrite Hrun in Hkeep. simpl in Hkeep.
    destruct Hkeep as (k1 & k2 & k3 & k4 & k5).
    exists w, d. repeat split; congruence. }
  split; [split; reflexivity|].
  split.
  { intros seqlist indexes x [->|[sign ->]]; reflexivity. }
  split.
  { intros seqlist indexes x Hx. unfold __init__.
    destruct x; try discriminate Hx; reflexivity. }
  split.
  { intros seqlist x d _. unfold __init__. reflexivity. }
  split.
  { intros seqlist indexes hashfuncs. reflexivity. }
  destruct (Hints 256 8) as (s & Hs & HN & HM & _ & _ & _ & Hr & Hc & Hz); [lia | lia |].
  exists s. split; [exact Hs|]. repeat split; try assumption.
Qed.

Lemma constructor_takes_explicit_dimensions_only_witness :
  (0 <= 28 /\ 0 <= 3 /\
   exists s, Examples.new None 28 3 = Ok s /\
             N s = 28 /\ M s = 3 /\ seeds s = range 0 3 /\
             length (hashes s) = Z.to_nat 3 /\
             Np.wf (table s) /\
             Np.nrows (table s) = Z.to_nat 3 /\ Np.ncols (table s) = Z.to_nat 28 /\
             forall j k, Np.cell (table s) j k = 0) /\
  (Np.fits_intp Examples.delta_twentieth = true /\
   __init__ Mmh3.hash Examples.getsizeof_table Examples.getsizeof_hashes None
     (PyFloat Examples.eps_tenth) (PyFloat Examples.delta_twentieth)
   = Raise TypeError) /\
  (Z.abs 3 < 2 ^ 63 /\
   __init__ Mmh3.hash Examples.getsizeof_table Examples.getsizeof_hashes None
     (PyFloat Examples.eps_tenth) (PyInt 3)
   = Raise TypeError) /\
  __init__ Mmh3.hash Examples.getsizeof_table Examples.getsizeof_hashes None
    (PyInt 28) (PyFloat S754_nan)
  = Raise ValueError.
Proof.
  destruct (constructor_takes_explicit_dimensions_only Mmh3.hash
              Examples.getsizeof_table Examples.getsizeof_hashes)
    as (Hints & _ & _ & Hnan & Hfloat & Hindexes & _).
  split; [|split; [|split]].
  - split; [lia|]. split; [lia|]. apply (Hints 28 3); lia.
  - split; [reflexivity|]. apply Hfloat. reflexivity.
  - split; [reflexivity|]. apply Hindexes. reflexivity.
  - apply Hnan. left. reflexivity.
Defined.

(** [CountMinSketch()], as the notebook builds [genomesketch]. *)
Example default_construction :
  exists s,
    construct Mmh3.hash Examples.getsizeof_table Examples.getsizeof_hashes None None None
      = Ok s /\
    N s = 256 /\ M s = 8 /\
    Np.nrows (table s) = 8%nat /\ Np.ncols (table s) = 256%nat.
Proof. eexists. split; [reflexivity|]. repeat split. Qed.

(** * Further properties *)

(** ** What the table counts *)

Section TableCounts.

Variable mmh3_hash : token -> Z -> Z.

Lemma hits_cons (self : sketch) (j k : nat) (x : token) (values : list token) :
  Counting.hits mmh3_hash self j k (x :: values) =
  (if decide (hash_index mmh3_hash self x j = Some k) then 1 else 0)
  + Counting.hits mmh3_hash self j k values.
Proof.
  unfold Counting.hits. rewrite filter_cons.
  destruct (decide (hash_index mmh3_hash self x j = Some k)); simpl; lia.
Qed.

Lemma hits_app (self : sketch) (j k : nat) (xs ys : list token) :
  Counting.hits mmh3_hash self j k (xs ++ ys) =
  Counting.hits mmh3_hash self j k xs + Counting.hits mmh3_hash self j k ys.
Proof. unfold Counting.hits. rewrite filter_app, length_app. lia. Qed.

Lemma hits_frame (s1 s2 : sketch) (j k : nat) (values : list token) :
  same_frame s1 s2 ->
  Counting.hits mmh3_hash s2 j k values = Counting.hits mmh3_hash s1 j k values.
Proof.
  intros Hf. unfold Counting.hits. do 2 f_equal.
  apply list_filter_iff. intros x. rewrite (hash_index_frame mmh3_hash s1 s2 x j Hf).
  reflexivity.
Qed.

Lemma hits_nonneg (self : sketch) (j k : nat) (values : list token) :
  0 <= Counting.hits mmh3_hash self j k values.
Proof. unfold Counting.hits. lia. Qed.

(** No token is sent to a column of a row the sketch does not have. *)
Lemma hits_no_row (self : sketch) (j k : nat) (values : list token) :
  (length (hashes self) <= j)%nat -> Counting.hits mmh3_hash self j k values = 0.
Proof.
  intros Hj. induction values as [|x values IH]; [reflexivity|].
  rewrite hits_cons, IH. unfold hash_index.
  rewrite (lookup_ge_None_2 (hashes self) j) by lia.
  rewrite decide_False by discriminate. reflexivity.
Qed.

Lemma same_frame_trans (s1 s2 s3 : sketch) :
  same_frame s1 s2 -> same_frame s2 s3 -> same_frame s1 s3.
Proof.
  intros (a1 & a2 & a3 & a4 & a5) (b1 & b2 & b3 & b4 & b5). repeat split; congruence.
Qed.

(** A sequence of [add] calls on a sketch that satisfies the invariant
    returns and adds to each cell the number of tokens its row sends there. *)
Lemma add_all_cells (values : list token) :
  forall self,
    wf self ->
    exists self',
      add_all mmh3_hash values self = (Ok tt, self') /\
      wf self' /\ same_frame self self' /\
      forall j k,
        Np.cell (table self') j k =
        Np.cell (table self) j k + Counting.hits mmh3_hash self j k values.
Proof.
  induction values as [|x values IH]; intros self Hwf.
  - exists self. split; [reflexivity|]. split; [exact Hwf|]. split; [repeat split|].
    intros j k. unfold Counting.hits. simpl. lia.
  - destruct (add_spec mmh3_hash x self Hwf) as (s1 & Hrun & Hwf1 & Hf1 & Hc1).
    destruct (IH s1 Hwf1) as (s2 & Hrest & Hwf2 & Hf2 & Hc2).
    exists s2. unfold add_all in *. simpl. unfold bind. rewrite Hrun.
    split; [exact Hrest|]. split; [exact Hwf2|].
    split; [exact (same_frame_trans _ _ _ Hf1 Hf2)|].
    intros j k. rewrite Hc2, Hc1, (hits_frame self s1 j k values Hf1), hits_cons.
    pose proof Hwf as (_ & _ & _ & _ & _ & Hlen).
    destruct (decide (hash_index mmh3_hash self x j = Some k)) as [Hk|Hk].
    + assert (Hj : (j < Z.to_nat (M self))%nat).
      { unfold hash_index in Hk. destruct (hashes self !! j) as [h|] eqn:Hh; [|discriminate].
        apply lookup_lt_Some in Hh. lia. }
      rewrite decide_True by auto. lia.
    + rewrite decide_False by tauto. lia.
Qed.

(** On a sketch that satisfies the invariant every token has a column in
    every row, and the column is inside the table. *)
Lemma hash_index_some (self : sketch) (x : token) (j : nat) :
  wf self -> (j < Z.to_nat (M self))%nat ->
  exists c, hash_index mmh3_hash self x j = Some c /\ (c < Z.to_nat (N self))%nat.
Proof.
  intros Hwf Hj.
  destruct (hash_index_defined mmh3_hash self x j Hwf Hj) as (h & c & _ & _ & Hc & Hidx).
  exists (Z.to_nat c). split; [exact Hidx | lia].
Qed.

End TableCounts.

(** Freshly constructed: the invariant and an all-zero table. *)
Lemma init_positive_width
    (mmh3_hash : token -> Z -> Z) (gt : Np.ndarray -> Z) (gh : list closure -> Z)
    (indexes hashfuncs : pyarg) (s0 : sketch) :
  __init__ mmh3_hash gt gh None indexes hashfuncs = Ok s0 ->
  0 < N s0 ->
  wf s0 /\ forall j k, Np.cell (table s0) j k = 0.
Proof.
  intros Hinit HN. split; [exact (init_wf _ _ _ _ _ _ Hinit HN)|].
  destruct (init_fresh _ _ _ _ _ _ Hinit) as (n & m & a & _ & _ & _ & _ & Ha & ->).
  simpl. exact (zeros_cells _ _ Ha).
Qed.

(** What a constructed sketch of positive width holds after a sequence of
    [add] calls. *)
Lemma fed_cells
    (mmh3_hash : token -> Z -> Z) (gt : Np.ndarray -> Z) (gh : list closure -> Z)
    (indexes hashfuncs : pyarg) (s0 : sketch) (values : list token) :
  __init__ mmh3_hash gt gh None indexes hashfuncs = Ok s0 ->
  0 < N s0 ->
  exists s,
    add_all mmh3_hash values s0 = (Ok tt, s) /\ wf s /\ same_frame s0 s /\
    forall j k, Np.cell (table s) j k = Counting.hits mmh3_hash s j k values.
Proof.
  intros Hinit HN.
  destruct (init_positive_width _ _ _ _ _ _ Hinit HN) as [Hwf Hzero].
  destruct (add_all_cells mmh3_hash values s0 Hwf) as (s & Hrun & Hwfs & Hf & Hc).
  exists s. split; [exact Hrun|]. split; [exact Hwfs|]. split; [exact Hf|].
  intros j k. rewrite Hc, Hzero, (hits_frame mmh3_hash s0 s j k values Hf). lia.
Qed.

(** X1. A sketch constructed with a positive width and then fed any
    sequence of tokens by [add] never raises, and afterwards each cell
    [[j, k]] holds exactly the number of fed tokens that the hash of row [j]
    sends to column [k]; the constructor's bulk load of the same sequence
    returns that very sketch. *)
Theorem table_counts_the_tokens_of_each_column
    (mmh3_hash : token -> Z -> Z) (gt : Np.ndarray -> Z) (gh : list closure -> Z)
    (indexes hashfuncs : pyarg) (s0 : sketch) (values : list token) :
  __init__ mmh3_hash gt gh None indexes hashfuncs = Ok s0 ->
  0 < N s0 ->
  exists s,
    add_all mmh3_hash values s0 = (Ok tt, s) /\
    __init__ mmh3_hash gt gh (Some values) indexes hashfuncs = Ok s /\
    forall j k, Np.cell (table s) j k = Counting.hits mmh3_hash s j k values.
Proof.
  intros Hinit HN.
  destruct (fed_cells mmh3_hash gt gh indexes hashfuncs s0 values Hinit HN)
    as (s & Hrun & _ & _ & Hc).
  exists s. split; [exact Hrun|]. split; [|exact Hc].
  destruct (init_fresh _ _ _ _ _ _ Hinit) as (n & m & a & -> & -> & Hn & Hm & Ha & Hs0).
  unfold __init__. rewrite Ha. simpl. rewrite <- Hs0, Hrun. reflexivity.
Qed.

Lemma table_counts_the_tokens_of_each_column_witness :
  Examples.new None 4 2 = Ok Examples.fresh /\
  0 < N Examples.fresh /\
  let values := [Examples.bytes "ACGT"; Examples.bytes "TTTT"; Examples.bytes "ACGT"] in
  exists s,
    add_all Mmh3.hash values Examples.fresh = (Ok tt, s) /\
    Examples.new (Some values) 4 2 = Ok s /\
    forall j k, Np.cell (table s) j k = Counting.hits Mmh3.hash s j k values.
Proof.
  split; [reflexivity|]. split; [simpl; lia|].
  apply (table_counts_the_tokens_of_each_column Mmh3.hash
           Examples.getsizeof_table Examples.getsizeof_hashes
           (PyInt 4) (PyInt 2) Examples.fresh); [reflexivity | simpl; lia].
Defined.

(** ** One-sided error *)

Lemma occurrences_le_hits (mmh3_hash : token -> Z -> Z) (self : sketch)
    (t : token) (j c : nat) (values : list token) :
  hash_index mmh3_hash self t j = Some c ->
  Counting.occurrences t values <= Counting.hits mmh3_hash self j c values.
Proof.
  intros Ht. unfold Counting.occurrences, Counting.hits.
  induction values as [|x values IH]; [simpl; lia|].
  rewrite !filter_cons.
  destruct (decide (x = t)) as [->|Hne].
  - rewrite decide_True by exact Ht. simpl. lia.
  - destruct (decide (hash_index mmh3_hash self x j = Some c)); simpl; lia.
Qed.

(** X2. After any sequence of [add] calls on a sketch constructed with a
    positive width, the cell that a row's hash selects for a token is never
    below the number of times the token was fed; hence any value that is the
    minimum of those cells over the rows, the point query of the token, is
    never below the true count either. *)
Theorem hashed_cells_never_undercount
    (mmh3_hash : token -> Z -> Z) (gt : Np.ndarray -> Z) (gh : list closure -> Z)
    (indexes hashfuncs : pyarg) (s0 : sketch) (values : list token) (t : token) :
  __init__ mmh3_hash gt gh None indexes hashfuncs = Ok s0 ->
  0 < N s0 ->
  let s := snd (add_all mmh3_hash values s0) in
  (forall j c, hash_index mmh3_hash s t j = Some c ->
     Counting.occurrences t values <= Np.cell (table s) j c) /\
  (forall m, Spec.is_point_query mmh3_hash s t m ->
     Counting.occurrences t values <= m).
Proof.
  intros Hinit HN s.
  destruct (fed_cells mmh3_hash gt gh indexes hashfuncs s0 values Hinit HN)
    as (s' & Hrun & Hwf & Hf & Hc).
  assert (s = s') as -> by (subst s; rewrite Hrun; reflexivity).
  assert (Hrow : forall j c, hash_index mmh3_hash s' t j = Some c ->
                   Counting.occurrences t values <= Np.cell (table s') j c).
  { intros j c Ht. rewrite Hc. apply occurrences_le_hits. exact Ht. }
  split; [exact Hrow|].
  intros m [(j & Hj & ->) _]. unfold Spec.point_cell.
  destruct (hash_index_some mmh3_hash s' t j Hwf Hj) as (c & Hidx & _).
  rewrite Hidx. apply Hrow. exact Hidx.
Qed.

Lemma hashed_cells_never_undercount_witness :
  Examples.new None 4 2 = Ok Examples.fresh /\
  0 < N Examples.fresh /\
  let values := [Examples.bytes "ACGT"; Examples.bytes "TTTT"; Examples.bytes "ACGT"] in
  let s := snd (add_all Mmh3.hash values Examples.fresh) in
  (forall j c, hash_index Mmh3.hash s (Examples.bytes "ACGT") j = Some c ->
     Counting.occurrences (Examples.bytes "ACGT") values <= Np.cell (table s) j c) /\
  (forall m, Spec.is_point_query Mmh3.hash s (Examples.bytes "ACGT") m ->
     Counting.occurrences (Examples.bytes "ACGT") values <= m).
Proof.
  split; [reflexivity|]. split; [simpl; lia|].
  apply (hashed_cells_never_undercount Mmh3.hash
           Examples.getsizeof_table Examples.getsizeof_hashes
           (PyInt 4) (PyInt 2) Examples.fresh); [reflexivity | simpl; lia].
Defined.

(** ** Sums over the columns of a row *)

Section Sums.

Lemma sum_over_plus (ks : list nat) (f g : nat -> Z) :
  Counting.sum_over ks (fun k => f k + g k) =
  Counting.sum_over ks f + Counting.sum_over ks g.
Proof.
  unfold Counting.sum_over. induction ks as [|k ks IH]; simpl; [reflexivity|].
  rewrite IH. lia.
Qed.

Lemma sum_over_ext (ks : list nat) (f g : nat -> Z) :
  (forall k, k ∈ ks -> f k = g k) ->
  Counting.sum_over ks f = Counting.sum_over ks g.
Proof.
  unfold Counting.sum_over. induction ks as [|k ks IH]; intros Hfg; simpl; [reflexivity|].
  rewrite IH, (Hfg k); [reflexivity | left |].
  intros k' Hk'. apply Hfg. right. exact Hk'.
Qed.

Lemma sum_over_le (ks : list nat) (f g : nat -> Z) :
  (forall k, k ∈ ks -> f k <= g k) ->
  Counting.sum_over ks f <= Counting.sum_over ks g.
Proof.
  unfold Counting.sum_over. induction ks as [|k ks IH]; intros Hfg; simpl; [lia|].
  assert (f k <= g k) by (apply Hfg; left).
  assert (foldr (fun k acc => f k + acc) 0 ks <= foldr (fun k acc => g k + acc) 0 ks).
  { apply IH. intros k' Hk'. apply Hfg. right. exact Hk'. }
  lia.
Qed.

(** A sum in which only the column [c] counts. *)
Lemma sum_over_pick (o : option nat) (g : nat -> Z) (a n : nat) :
  Counting.sum_over (seq a n) (fun k => (if decide (o = Some k) then 1 else 0) * g k) =
  match o with
  | Some c => if decide (a <= c < a + n)%nat then g c else 0
  | None => 0
  end.
Proof.
  unfold Counting.sum_over. revert a. induction n as [|n IH]; intros a; simpl.
  - destruct o as [c|]; [|reflexivity]. rewrite decide_False by lia. reflexivity.
  - rewrite IH. destruct o as [c|].
    + destruct (decide (Some c = Some a)) as [[= ->]|Hne].
      * rewrite decide_False by lia. rewrite decide_True by lia. lia.
      * assert (c <> a) by congruence.
        destruct (decide (S a <= c < S a + n)%nat).
        -- rewrite decide_True by lia. lia.
        -- rewrite decide_False by lia. lia.
    + rewrite decide_False by discriminate. lia.
Qed.

(** A stored row read back cell by cell. *)
Lemma row_sum_cells (a : Np.ndarray) (j : nat) (row : list Z) :
  Np.wf a -> Np.data a !! j = Some row ->
  foldr Z.add 0 row = Counting.sum_over (seq 0 (Np.ncols a)) (Np.cell a j).
Proof.
  intros [_ Hrows] Hrow.
  assert (Hlen : length row = Np.ncols a).
  { rewrite Forall_lookup in Hrows. exact (Hrows _ _ Hrow). }
  assert (Heq : row = Np.cell a j <$> seq 0 (Np.ncols a)).
  { apply list_eq. intros k. rewrite list_lookup_fmap.
    destruct (decide (k < Np.ncols a)%nat) as [Hk|Hk].
    - rewrite lookup_seq_lt by exact Hk. simpl. unfold Np.cell. rewrite Hrow. simpl.
      destruct (lookup_lt_is_Some_2 row k) as [v Hv]; [lia|]. rewrite Hv. reflexivity.
    - rewrite lookup_seq_ge by lia. simpl. apply lookup_ge_None_2. lia. }
  rewrite Heq at 1. unfold Counting.sum_over. rewrite foldr_fmap. reflexivity.
Qed.

End Sums.

(** ** Row totals *)

Lemma sum_over_zero (ks : list nat) : Counting.sum_over ks (fun _ => 0) = 0.
Proof. unfold Counting.sum_over. induction ks as [|k ks IH]; simpl; lia. Qed.

(** Every token lands in exactly one column of a row. *)
Lemma sum_hits (mmh3_hash : token -> Z -> Z) (self : sketch) (j : nat)
    (values : list token) :
  wf self -> (j < Z.to_nat (M self))%nat ->
  Counting.sum_over (seq 0 (Z.to_nat (N self)))
    (fun k => Counting.hits mmh3_hash self j k values)
  = Z.of_nat (length values).
Proof.
  intros Hwf Hj. induction values as [|x values IH].
  - rewrite (sum_over_ext _ _ (fun _ => 0)) by reflexivity. apply sum_over_zero.
  - rewrite (sum_over_ext _ _
      (fun k => (if decide (hash_index mmh3_hash self x j = Some k) then 1 else 0) * 1
                + Counting.hits mmh3_hash self j k values)).
    2:{ intros k _. rewrite hits_cons. lia. }
    rewrite sum_over_plus, IH, (sum_over_pick _ (fun _ => 1)).
    destruct (hash_index_some mmh3_hash self x j Hwf Hj) as (c & -> & Hc).
    rewrite decide_True by lia. simpl length. lia.
Qed.

(** X3. After any sequence of [add] calls on a sketch constructed with a
    positive width, every row of the table sums to the number of tokens
    fed: each [add] puts one unit in each row, whatever the collisions.
    [np.sum] over the rows returns that number as long as it is at most
    2^53, where the float64 sum is exact. *)
Theorem every_row_sums_to_the_number_of_tokens
    (mmh3_hash : token -> Z -> Z) (gt : Np.ndarray -> Z) (gh : list closure -> Z)
    (indexes hashfuncs : pyarg) (s0 : sketch) (values : list token) :
  __init__ mmh3_hash gt gh None indexes hashfuncs = Ok s0 ->
  0 < N s0 ->
  let s := snd (add_all mmh3_hash values s0) in
  forall j, (j < Z.to_nat (M s0))%nat ->
    Counting.row_totals (table s) !! j = Some (Z.of_nat (length values)) /\
    (Z.of_nat (length values) <= 2 ^ 53 ->
     Np.sum_axis1 (table s) !! j = Some (Z.of_nat (length values))).
Proof.
  intros Hinit HN s j Hj.
  destruct (fed_cells mmh3_hash gt gh indexes hashfuncs s0 values Hinit HN)
    as (s' & Hrun & Hwf & Hf & Hc).
  assert (s = s') as -> by (subst s; rewrite Hrun; reflexivity).
  pose proof Hwf as (_ & _ & Hnp & Hrows & Hcols & _).
  destruct Hf as (HNs & HMs & _).
  destruct (lookup_lt_is_Some_2 (Np.data (table s')) j) as [row Hrow].
  { destruct Hnp as [Hlen _]. rewrite Hlen, Hrows, HMs. exact Hj. }
  assert (Htotal : Counting.total row = Z.of_nat (length values)).
  { unfold Counting.total.
    rewrite (row_sum_cells (table s') j row Hnp Hrow), Hcols.
    rewrite (sum_over_ext _ _ (fun k => Counting.hits mmh3_hash s' j k values))
      by (intros k _; apply Hc).
    apply sum_hits; [exact Hwf | rewrite HMs; exact Hj]. }
  split.
  - unfold Counting.row_totals. rewrite list_lookup_fmap, Hrow. simpl.
    f_equal. exact Htotal.
  - intros Hn. unfold Np.sum_axis1. rewrite list_lookup_fmap, Hrow. simpl.
    f_equal. rewrite add_reduce_exact; [exact Htotal | | rewrite Htotal; exact Hn].
    apply Forall_lookup. intros k x Hx.
    assert (Np.cell (table s') j k = x) as <-
      by (unfold Np.cell; rewrite Hrow; simpl; rewrite Hx; reflexivity).
    rewrite Hc. apply hits_nonneg.
Qed.

Lemma every_row_sums_to_the_number_of_tokens_witness :
  Examples.new None 4 2 = Ok Examples.fresh /\
  0 < N Examples.fresh /\
  let values := [Examples.bytes "ACGT"; Examples.bytes "TTTT"; Examples.bytes "ACGT"] in
  let s := snd (add_all Mmh3.hash values Examples.fresh) in
  forall j, (j < Z.to_nat (M Examples.fresh))%nat ->
    Counting.row_totals (table s) !! j = Some (Z.of_nat (length values)) /\
    (Z.of_nat (length values) <= 2 ^ 53 ->
     Np.sum_axis1 (table s) !! j = Some (Z.of_nat (length values))).
Proof.
  split; [reflexivity|]. split; [simpl; lia|].
  apply (every_row_sums_to_the_number_of_tokens Mmh3.hash
           Examples.getsizeof_table Examples.getsizeof_hashes
           (PyInt 4) (PyInt 2) Examples.fresh); [reflexivity | simpl; lia].
Defined.

(** ** Merging and reordering streams *)

(** Two well-formed arrays of one shape with the same cells are equal. *)
Lemma array_ext (a b : Np.ndarray) :
  Np.wf a -> Np.wf b ->
  Np.nrows a = Np.nrows b -> Np.ncols a = Np.ncols b ->
  (forall i k, Np.cell a i k = Np.cell b i k) ->
  a = b.
Proof.
  destruct a as [ra ca da], b as [rb cb db]. unfold Np.wf. simpl.
  intros [Hla Hra] [Hlb Hrb] <- <- Hcells. f_equal.
  apply list_eq. intros i.
  destruct (da !! i) as [rowa|] eqn:Ha, (db !! i) as [rowb|] eqn:Hb.
  - f_equal. apply list_eq. intros k.
    rewrite Forall_lookup in Hra, Hrb.
    pose proof (Hra _ _ Ha) as Hlena. pose proof (Hrb _ _ Hb) as Hlenb.
    specialize (Hcells i k). unfold Np.cell in Hcells. simpl in Hcells.
    rewrite Ha, Hb in Hcells. simpl in Hcells.
    destruct (rowa !! k) as [va|] eqn:Hva, (rowb !! k) as [vb|] eqn:Hvb.
    + simpl in Hcells. congruence.
    + apply lookup_lt_Some in Hva. apply lookup_ge_None in Hvb. lia.
    + apply lookup_ge_None in Hva. apply lookup_lt_Some in Hvb. lia.
    + reflexivity.
  - apply lookup_lt_Some in Ha. apply lookup_ge_None in Hb. lia.
  - apply lookup_ge_None in Ha. apply lookup_lt_Some in Hb. lia.
  - reflexivity.
Qed.

(** X4. Feeding a sketch the concatenation of two sequences gives, cell
    for cell, the sum of the tables obtained by feeding each sequence to a
    sketch of the same dimensions: tables of separate streams can be merged
    by addition. *)
Theorem table_of_concatenation_is_the_sum_of_tables
    (mmh3_hash : token -> Z -> Z) (gt : Np.ndarray -> Z) (gh : list closure -> Z)
    (indexes hashfuncs : pyarg) (s0 : sketch) (xs ys : list token) :
  __init__ mmh3_hash gt gh None indexes hashfuncs = Ok s0 ->
  0 < N s0 ->
  forall j k,
    Np.cell (table (snd (add_all mmh3_hash (xs ++ ys) s0))) j k =
    Np.cell (table (snd (add_all mmh3_hash xs s0))) j k
    + Np.cell (table (snd (add_all mmh3_hash ys s0))) j k.
Proof.
  intros Hinit HN j k.
  destruct (fed_cells mmh3_hash gt gh indexes hashfuncs s0 (xs ++ ys) Hinit HN)
    as (sxy & -> & _ & Hfxy & Hcxy).
  destruct (fed_cells mmh3_hash gt gh indexes hashfuncs s0 xs Hinit HN)
    as (sx & -> & _ & Hfx & Hcx).
  destruct (fed_cells mmh3_hash gt gh indexes hashfuncs s0 ys Hinit HN)
    as (sy & -> & _ & Hfy & Hcy).
  simpl. rewrite Hcxy, Hcx, Hcy.
  rewrite (hits_frame mmh3_hash s0 sxy j k _ Hfxy), (hits_frame mmh3_hash s0 sx j k _ Hfx),
    (hits_frame mmh3_hash s0 sy j k _ Hfy).
  apply hits_app.
Qed.

Lemma table_of_concatenation_is_the_sum_of_tables_witness :
  Examples.new None 4 2 = Ok Examples.fresh /\
  0 < N Examples.fresh /\
  let xs := [Examples.bytes "ACGT"; Examples.bytes "TTTT"] in
  let ys := [Examples.bytes "ACGT"] in
  forall j k,
    Np.cell (table (snd (add_all Mmh3.hash (xs ++ ys) Examples.fresh))) j k =
    Np.cell (table (snd (add_all Mmh3.hash xs Examples.fresh))) j k
    + Np.cell (table (snd (add_all Mmh3.hash ys Examples.fresh))) j k.
Proof.
  split; [reflexivity|]. split; [simpl; lia|].
  apply (table_of_concatenation_is_the_sum_of_tables Mmh3.hash
           Examples.getsizeof_table Examples.getsizeof_hashes
           (PyInt 4) (PyInt 2) Examples.fresh); [reflexivity | simpl; lia].
Defined.

(** X5. The order in which tokens are fed does not matter: two sequences
    that are permutations of each other leave a sketch of the same
    dimensions with the same table. *)
Theorem table_does_not_depend_on_the_order_of_tokens
    (mmh3_hash : token -> Z -> Z) (gt : Np.ndarray -> Z) (gh : list closure -> Z)
    (indexes hashfuncs : pyarg) (s0 : sketch) (xs ys : list token) :
  __init__ mmh3_hash gt gh None indexes hashfuncs = Ok s0 ->
  0 < N s0 ->
  xs ≡ₚ ys ->
  table (snd (add_all mmh3_hash xs s0)) = table (snd (add_all mmh3_hash ys s0)).
Proof.
  intros Hinit HN Hperm.
  destruct (fed_cells mmh3_hash gt gh indexes hashfuncs s0 xs Hinit HN)
    as (sx & -> & Hwfx & Hfx & Hcx).
  destruct (fed_cells mmh3_hash gt gh indexes hashfuncs s0 ys Hinit HN)
    as (sy & -> & Hwfy & Hfy & Hcy).
  simpl.
  destruct Hwfx as (_ & _ & Hnpx & Hrx & Hcolx & _), Hwfy as (_ & _ & Hnpy & Hry & Hcoly & _).
  pose proof Hfx as (HNx & HMx & _). pose proof Hfy as (HNy & HMy & _).
  apply array_ext; try assumption; try congruence.
  intros j k. rewrite Hcx, Hcy.
  rewrite (hits_frame mmh3_hash s0 sx j k _ Hfx), (hits_frame mmh3_hash s0 sy j k _ Hfy).
  unfold Counting.hits. rewrite Hperm. reflexivity.
Qed.

Lemma table_does_not_depend_on_the_order_of_tokens_witness :
  Examples.new None 4 2 = Ok Examples.fresh /\
  0 < N Examples.fresh /\
  [Examples.bytes "ACGT"; Examples.bytes "TTTT"] ≡ₚ [Examples.bytes "TTTT"; Examples.bytes "ACGT"] /\
  table (snd (add_all Mmh3.hash [Examples.bytes "ACGT"; Examples.bytes "TTTT"] Examples.fresh))
  = table (snd (add_all Mmh3.hash [Examples.bytes "TTTT"; Examples.bytes "ACGT"] Examples.fresh)).
Proof.
  assert (Hp : [Examples.bytes "ACGT"; Examples.bytes "TTTT"]
               ≡ₚ [Examples.bytes "TTTT"; Examples.bytes "ACGT"]) by apply perm_swap.
  split; [reflexivity|]. split; [simpl; lia|]. split; [exact Hp|].
  apply (table_does_not_depend_on_the_order_of_tokens Mmh3.hash
           Examples.getsizeof_table Examples.getsizeof_hashes
           (PyInt 4) (PyInt 2) Examples.fresh); [reflexivity | simpl; lia | exact Hp].
Defined.

(** ** The inner product never under-estimates *)

Section InnerProductBound.

Variable mmh3_hash : token -> Z -> Z.

(** The row-wise dot product of two count tables counts the pairs of
    tokens that the row sends to one column. *)
Lemma sum_hits_product (self : sketch) (j : nat) (xs ys : list token) :
  wf self -> (j < Z.to_nat (M self))%nat ->
  Counting.sum_over (seq 0 (Z.to_nat (N self)))
    (fun k => Counting.hits mmh3_hash self j k xs * Counting.hits mmh3_hash self j k ys)
  = foldr (fun x acc => Counting.colliding mmh3_hash self j ys x + acc) 0 xs.
Proof.
  intros Hwf Hj. induction xs as [|x xs IH].
  - rewrite (sum_over_ext _ _ (fun _ => 0)) by (intros k _; unfold Counting.hits; simpl; lia).
    apply sum_over_zero.
  - rewrite (sum_over_ext _ _
      (fun k => (if decide (hash_index mmh3_hash self x j = Some k) then 1 else 0)
                * Counting.hits mmh3_hash self j k ys
                + Counting.hits mmh3_hash self j k xs * Counting.hits mmh3_hash self j k ys)).
    2:{ intros k _. rewrite hits_cons. lia. }
    rewrite sum_over_plus, IH, sum_over_pick. simpl foldr. unfold Counting.colliding at 2.
    destruct (hash_index_some mmh3_hash self x j Hwf Hj) as (c & -> & Hc).
    rewrite decide_True by lia. reflexivity.
Qed.

Lemma inner_product_le_collisions (self : sketch) (j : nat) (xs ys : list token) :
  wf self -> (j < Z.to_nat (M self))%nat ->
  Counting.inner_product xs ys <= foldr (fun x acc => Counting.colliding mmh3_hash self j ys x + acc) 0 xs.
Proof.
  intros Hwf Hj. unfold Counting.inner_product.
  induction xs as [|x xs IH]; simpl; [lia|].
  destruct (hash_index_some mmh3_hash self x j Hwf Hj) as (c & Hx & _).
  unfold Counting.colliding at 1.
  rewrite Hx. pose proof (occurrences_le_hits mmh3_hash self x j c ys Hx). lia.
Qed.

End InnerProductBound.

(** No column of a row receives more tokens than were fed. *)
Lemma hits_le_length (mmh3_hash : token -> Z -> Z) (self : sketch) (j k : nat)
    (values : list token) :
  Counting.hits mmh3_hash self j k values <= Z.of_nat (length values).
Proof. unfold Counting.hits. pose proof (length_filter (fun x => hash_index mmh3_hash self x j = Some k) values). lia. Qed.

Lemma collisions_le_product (mmh3_hash : token -> Z -> Z) (self : sketch) (j : nat)
    (xs ys : list token) :
  foldr (fun x acc => Counting.colliding mmh3_hash self j ys x + acc) 0 xs
  <= Z.of_nat (length xs) * Z.of_nat (length ys).
Proof.
  induction xs as [|x xs IH]; simpl foldr; [simpl; lia|].
  assert (Counting.colliding mmh3_hash self j ys x <= Z.of_nat (length ys)).
  { unfold Counting.colliding. destruct (hash_index mmh3_hash self x j);
      [apply hits_le_length | lia]. }
  simpl length. lia.
Qed.

(** X6. Feed two sketches of the same positive dimensions the token
    sequences [xs] and [ys], short enough that the product of their lengths
    does not pass 2^53, so that no product or sum in the estimator is rounded.
    The inner-product estimate of their tables is defined and is never below
    the true inner product of the two frequency vectors,
    [sum over t of count_xs(t) * count_ys(t)]: collisions only add. *)
Theorem inner_product_estimate_never_undercounts
    (mmh3_hash : token -> Z -> Z) (gt : Np.ndarray -> Z) (gh : list closure -> Z)
    (indexes hashfuncs : pyarg) (s0 : sketch) (xs ys : list token) :
  __init__ mmh3_hash gt gh None indexes hashfuncs = Ok s0 ->
  0 < N s0 -> 0 < M s0 ->
  Z.of_nat (length xs) * Z.of_nat (length ys) <= 2 ^ 53 ->
  let A := snd (add_all mmh3_hash xs s0) in
  let B := snd (add_all mmh3_hash ys s0) in
  exists e,
    BinaryClassification._dotProduct (table A) (table B) = Ok e /\
    classifier._dotProduct (table A) (table B) = Ok e /\
    Counting.inner_product xs ys <= e.
Proof.
  intros Hinit HN HM Hrange A B.
  destruct (fed_cells mmh3_hash gt gh indexes hashfuncs s0 xs Hinit HN)
    as (sx & Hrx & Hwfx & Hfx & Hcx).
  destruct (fed_cells mmh3_hash gt gh indexes hashfuncs s0 ys Hinit HN)
    as (sy & Hry & Hwfy & Hfy & Hcy).
  assert (A = sx) as -> by (subst A; rewrite Hrx; reflexivity).
  assert (B = sy) as -> by (subst B; rewrite Hry; reflexivity).
  destruct (init_positive_width _ _ _ _ _ _ Hinit HN) as [Hwf0 _].
  pose proof Hwfx as (_ & _ & _ & Hrowsx & Hcolsx & _).
  pose proof Hwfy as (_ & _ & _ & Hrowsy & Hcolsy & _).
  pose proof Hfx as (HNx & HMx & _). pose proof Hfy as (HNy & HMy & _).
  set (d := Z.to_nat (M s0)). set (w := Z.to_nat (N s0)).
  assert (Hdot : forall j, (j < d)%nat ->
            Spec.row_dot (table sx) (table sy) w j =
            foldr (fun x acc => Counting.colliding mmh3_hash s0 j ys x + acc) 0 xs).
  { intros j Hj.
    change (Spec.row_dot (table sx) (table sy) w j)
      with (Counting.sum_over (seq 0 w)
              (fun k => Np.cell (table sx) j k * Np.cell (table sy) j k)).
    rewrite (sum_over_ext _ _
      (fun k => Counting.hits mmh3_hash s0 j k xs * Counting.hits mmh3_hash s0 j k ys)).
    2:{ intros k _. rewrite Hcx, Hcy.
        rewrite (hits_frame mmh3_hash s0 sx j k _ Hfx), (hits_frame mmh3_hash s0 sy j k _ Hfy).
        reflexivity. }
    subst w. apply (sum_hits_product mmh3_hash s0 j xs ys Hwf0 Hj). }
  destruct (mul_row_sums_exact (table sx) (table sy) d w) as (p & Hmul & Hsums);
    try (subst d w; congruence).
  { intros j k _ _. rewrite Hcx, Hcy.
    apply Z.mul_nonneg_nonneg; apply hits_nonneg. }
  { intros j Hj. rewrite (Hdot j Hj).
    pose proof (collisions_le_product mmh3_hash s0 j xs ys). lia. }
  destruct (np_min_rows d (Spec.row_dot (table sx) (table sy) w)) as (e & Hmin & Hspec);
    [subst d; lia|].
  exists e. unfold BinaryClassification._dotProduct, classifier._dotProduct.
  rewrite Hmul. simpl. rewrite Hsums, Hmin. split; [reflexivity|]. split; [reflexivity|].
  destruct Hspec as [(j & Hj & ->) _]. rewrite (Hdot j Hj).
  apply inner_product_le_collisions; [exact Hwf0 | exact Hj].
Qed.

Lemma inner_product_estimate_never_undercounts_witness :
  Examples.new None 4 2 = Ok Examples.fresh /\
  0 < N Examples.fresh /\ 0 < M Examples.fresh /\
  let xs := [Examples.bytes "ACGT"; Examples.bytes "TTTT"; Examples.bytes "ACGT"] in
  let ys := [Examples.bytes "ACGT"; Examples.bytes "GGGG"] in
  Z.of_nat (length xs) * Z.of_nat (length ys) <= 2 ^ 53 /\
  let A := snd (add_all Mmh3.hash xs Examples.fresh) in
  let B := snd (add_all Mmh3.hash ys Examples.fresh) in
  exists e,
    BinaryClassification._dotProduct (table A) (table B) = Ok e /\
    classifier._dotProduct (table A) (table B) = Ok e /\
    Counting.inner_product xs ys <= e.
Proof.
  split; [reflexivity|]. split; [simpl; lia|]. split; [simpl; lia|].
  intros xs ys. split; [vm_compute; discriminate|].
  apply (inner_product_estimate_never_undercounts Mmh3.hash
           Examples.getsizeof_table Examples.getsizeof_hashes
           (PyInt 4) (PyInt 2) Examples.fresh);
    [reflexivity | simpl; lia | simpl; lia | vm_compute; discriminate].
Defined.

(** ** Symmetry and sign of the inner product *)

Lemma broadcast_dim_comm (m n : nat) : Np.broadcast_dim m n = Np.broadcast_dim n m.
Proof.
  unfold Np.broadcast_dim.
  destruct (Nat.eqb_spec m n), (Nat.eqb_spec n m), (Nat.eqb_spec m 1), (Nat.eqb_spec n 1);
    try reflexivity; try lia; congruence.
Qed.

Lemma mul_comm (a b : Np.ndarray) : Np.mul a b = Np.mul b a.
Proof.
  unfold Np.mul.
  rewrite (broadcast_dim_comm (Np.nrows a)), (broadcast_dim_comm (Np.ncols a)).
  destruct (Np.broadcast_dim (Np.nrows b) (Np.nrows a)) as [r|]; [|reflexivity].
  destruct (Np.broadcast_dim (Np.ncols b) (Np.ncols a)) as [c|]; [|reflexivity].
  do 2 f_equal. apply list_fmap_ext. intros _ i _.
  apply list_fmap_ext. intros _ k _. apply fmul_comm.
Qed.

(** X7. The inner-product estimate is symmetric in its two tables, for
    every pair of tables, broadcast or not, and when it raises it raises
    alike in both orders. *)
Theorem dot_product_is_symmetric (tableA tableB : Np.ndarray) :
  BinaryClassification._dotProduct tableA tableB
    = BinaryClassification._dotProduct tableB tableA /\
  classifier._dotProduct tableA tableB = classifier._dotProduct tableB tableA.
Proof.
  unfold BinaryClassification._dotProduct, classifier._dotProduct.
  rewrite (mul_comm tableA tableB). split; reflexivity.
Qed.

(** X8. On tables without negative cells, as the tables of all sketches
    are, an inner-product estimate is never negative, also when numpy
    broadcasts one table against the other. *)
Theorem dot_product_is_nonnegative (tableA tableB : Np.ndarray) (e : Z) :
  Np.cells_nonneg tableA -> Np.cells_nonneg tableB ->
  BinaryClassification._dotProduct tableA tableB = Ok e ->
  0 <= e.
Proof.
  intros HA HB. unfold BinaryClassification._dotProduct, Np.mul.
  destruct (Np.broadcast_dim (Np.nrows tableA) (Np.nrows tableB)) as [r|]; [|discriminate].
  destruct (Np.broadcast_dim (Np.ncols tableA) (Np.ncols tableB)) as [c|]; [|discriminate].
  simpl. intros Hmin. apply np_min_spec in Hmin as [Hin _].
  unfold Np.sum_axis1 in Hin. simpl in Hin.
  apply list_elem_of_fmap in Hin as (row & -> & Hrow).
  apply list_elem_of_fmap in Hrow as (i & -> & _).
  apply add_reduce_nonneg. apply Forall_fmap, Forall_forall. intros k _. simpl.
  apply fmul_nonneg; [apply HA | apply HB].
Qed.

Lemma dot_product_is_nonnegative_witness :
  Np.cells_nonneg (table Examples.two_by_four) /\
  Np.cells_nonneg (table (Examples.two_rows 2)) /\
  BinaryClassification._dotProduct
    (table Examples.two_by_four) (table (Examples.two_rows 2)) = Ok 8 /\
  0 <= 8.
Proof.
  assert (HA : Np.cells_nonneg (table Examples.two_by_four)).
  { intros [|[|i]] [|[|[|[|k]]]]; vm_compute; discriminate. }
  assert (HB : Np.cells_nonneg (table (Examples.two_rows 2))).
  { intros [|[|i]] [|k]; vm_compute; discriminate. }
  split; [exact HA|]. split; [exact HB|]. split; [reflexivity|].
  apply (dot_product_is_nonnegative (table Examples.two_by_four)
           (table (Examples.two_rows 2)) 8 HA HB).
  reflexivity.
Defined.

(** ** The exact counter *)

Section Dictionary.

Variable getsizeof_self : Z.
Variable getsizeof_dict : gmap token Z -> Z.

Lemma occurrences_cons (t x : token) (values : list token) :
  Counting.occurrences t (x :: values) =
  (if decide (x = t) then 1 else 0) + Counting.occurrences t values.
Proof.
  unfold Counting.occurrences. rewrite filter_cons.
  destruct (decide (x = t)); simpl; lia.
Qed.

Lemma occurrences_absent (t : token) (values : list token) :
  t ∉ values -> Counting.occurrences t values = 0.
Proof.
  induction values as [|x values IH]; intros Hnotin; [reflexivity|].
  rewrite occurrences_cons.
  rewrite decide_False by (intros ->; apply Hnotin; left).
  rewrite IH; [reflexivity|]. intros Hin. apply Hnotin. right. exact Hin.
Qed.

Lemma occurrences_present (t : token) (values : list token) :
  t ∈ values -> 0 < Counting.occurrences t values.
Proof.
  induction values as [|x values IH]; intros Hin; [inversion Hin|].
  rewrite occurrences_cons. unfold Counting.occurrences in *.
  destruct (decide (x = t)); [lia|].
  apply elem_of_cons in Hin as [->|Hin]; [congruence|]. specialize (IH Hin). lia.
Qed.

(** One [add]: it returns, and moves the count of its token only. *)
Lemma dictionary_add_lookup (d : dictionary.t) (x t : token) :
  fst (dictionary.add getsizeof_dict x d) = Ok tt /\
  dictionary.dictionary (snd (dictionary.add getsizeof_dict x d)) !! t =
  if decide (t = x) then Some (default 0 (dictionary.dictionary d !! x) + 1)
  else dictionary.dictionary d !! t.
Proof.
  unfold dictionary.add, bind, get_self, put_self. simpl. split; [reflexivity|].
  destruct (decide (t = x)) as [->|Hne].
  - destruct (dictionary.dictionary d !! x) as [c|]; simpl;
      rewrite lookup_insert_eq; reflexivity.
  - destruct (dictionary.dictionary d !! x) as [c|]; simpl;
      rewrite lookup_insert_ne by congruence; reflexivity.
Qed.

Lemma dictionary_add_all_lookup (values : list token) :
  forall (d : dictionary.t) (t : token),
    fst (dictionary.add_all getsizeof_dict values d) = Ok tt /\
    dictionary.dictionary (snd (dictionary.add_all getsizeof_dict values d)) !! t =
    if decide (t ∈ values)
    then Some (default 0 (dictionary.dictionary d !! t) + Counting.occurrences t values)
    else dictionary.dictionary d !! t.
Proof.
  induction values as [|x values IH]; intros d t.
  - split; [reflexivity|]. rewrite decide_False by apply not_elem_of_nil. reflexivity.
  - unfold dictionary.add_all in *. simpl. unfold bind at 1 2.
    destruct (dictionary_add_lookup d x t) as [Hok Hd1].
    destruct (dictionary.add getsizeof_dict x d) as [[[]|e] d1]; simpl in Hok, Hd1;
      [|discriminate].
    destruct (IH d1 t) as [Hrun Hlook]. split; [exact Hrun|].
    rewrite Hlook, Hd1, occurrences_cons.
    destruct (decide (t = x)) as [->|Hne].
    + rewrite (decide_True (P := x = x)) by reflexivity.
      rewrite (decide_True (P := x ∈ x :: values)) by left.
      destruct (decide (x ∈ values)) as [Hin|Hnotin]; simpl.
      * f_equal; lia.
      * rewrite (occurrences_absent x values Hnotin). f_equal; lia.
    + rewrite (decide_False (P := x = t)) by congruence.
      destruct (decide (t ∈ values)) as [Hin|Hnotin].
      * rewrite decide_True by (right; exact Hin). f_equal; lia.
      * rewrite decide_False; [reflexivity|].
        intros Hin. apply elem_of_cons in Hin as [?|?]; tauto.
Qed.

End Dictionary.

(** X9. The naive dictionary counts exactly. Starting from any dictionary
    and running the loop of [timed_update] over a token sequence, which never
    raises, [estimate] of a token of the sequence returns its earlier count
    (zero if it had none) plus its number of occurrences in the sequence, and
    [estimate] of any other token answers as before. From an empty dictionary
    the estimate is the number of occurrences, and a token that never occurred
    yields the not-found message and no value. *)
Theorem dictionary_counts_exactly
    (getsizeof_self : Z) (getsizeof_dict : gmap token Z -> Z)
    (values : list token) (t : token) :
  (forall d,
     let d' := snd (dictionary.add_all getsizeof_dict values d) in
     fst (dictionary.add_all getsizeof_dict values d) = Ok tt /\
     (t ∈ values ->
        dictionary.estimate d' t =
        (PyNum (default 0 (dictionary.dictionary d !! t)
                + Counting.occurrences t values), [])) /\
     (t ∉ values -> dictionary.estimate d' t = dictionary.estimate d t)) /\
  let fresh := snd (dictionary.add_all getsizeof_dict values
                      (dictionary.__init__ getsizeof_self)) in
  (t ∈ values ->
     dictionary.estimate fresh t = (PyNum (Counting.occurrences t values), []) /\
     0 < Counting.occurrences t values) /\
  (t ∉ values ->
     dictionary.estimate fresh t = (PyNone, [PrintLine dictionary.not_found])).
Proof.
  assert (Hgen : forall d,
     let d' := snd (dictionary.add_all getsizeof_dict values d) in
     fst (dictionary.add_all getsizeof_dict values d) = Ok tt /\
     (t ∈ values ->
        dictionary.estimate d' t =
        (PyNum (default 0 (dictionary.dictionary d !! t)
                + Counting.occurrences t values), [])) /\
     (t ∉ values -> dictionary.estimate d' t = dictionary.estimate d t)).
  { intros d d'. destruct (dictionary_add_all_lookup getsizeof_dict values d t) as [Hok Hl].
    split; [exact Hok|]. unfold dictionary.estimate. subst d'. rewrite Hl. split.
    - intros Hin. rewrite decide_True by exact Hin. reflexivity.
    - intros Hnotin. rewrite decide_False by exact Hnotin. reflexivity. }
  split; [exact Hgen|].
  intros fresh. destruct (Hgen (dictionary.__init__ getsizeof_self)) as (_ & Hin & Hout).
  fold fresh in Hin, Hout. split.
  - intros Ht. rewrite (Hin Ht). simpl. rewrite lookup_empty. simpl.
    split; [reflexivity | apply occurrences_present; exact Ht].
  - intros Ht. rewrite (Hout Ht). unfold dictionary.estimate. simpl.
    rewrite lookup_empty. reflexivity.
Qed.

Example dictionary_counts :
  let values := [Examples.bytes "ACGT"; Examples.bytes "TTTT"; Examples.bytes "ACGT"] in
  let d := snd (dictionary.add_all (fun _ => 0) values (dictionary.__init__ 48)) in
  dictionary.estimate d (Examples.bytes "ACGT") = (PyNum 2, []) /\
  dictionary.estimate d (Examples.bytes "GGGG") = (PyNone, [PrintLine dictionary.not_found]).
Proof. split; vm_compute; reflexivity. Qed.

(** X10. The sketch never counts less than the dictionary. Feed the same
    token sequence to a sketch constructed with positive width and to an
    empty dictionary: whenever the dictionary's [estimate] returns a count for
    a token, every row's hashed cell of the sketch, and so every minimum over
    the rows, is at least that count. *)
Theorem sketch_cells_dominate_the_dictionary
    (mmh3_hash : token -> Z -> Z) (gt : Np.ndarray -> Z) (gh : list closure -> Z)
    (getsizeof_self : Z) (getsizeof_dict : gmap token Z -> Z)
    (indexes hashfuncs : pyarg) (s0 : sketch) (values : list token)
    (t : token) (c : Z) :
  __init__ mmh3_hash gt gh None indexes hashfuncs = Ok s0 ->
  0 < N s0 ->
  let s := snd (add_all mmh3_hash values s0) in
  let d := snd (dictionary.add_all getsizeof_dict values
                  (dictionary.__init__ getsizeof_self)) in
  fst (dictionary.estimate d t) = PyNum c ->
  (forall j col, hash_index mmh3_hash s t j = Some col -> c <= Np.cell (table s) j col) /\
  (forall m, Spec.is_point_query mmh3_hash s t m -> c <= m).
Proof.
  intros Hinit HN s d Hest.
  assert (Hc : c = Counting.occurrences t values).
  { destruct (dictionary_add_all_lookup getsizeof_dict values
                (dictionary.__init__ getsizeof_self) t) as [_ Hl].
    unfold dictionary.estimate in Hest. subst d. rewrite Hl in Hest.
    simpl in Hest. rewrite lookup_empty in Hest. simpl in Hest.
    destruct (decide (t ∈ values)); simpl in Hest; [|discriminate].
    injection Hest as <-. lia. }
  subst c.
  destruct (fed_cells mmh3_hash gt gh indexes hashfuncs s0 values Hinit HN)
    as (s' & Hrun & Hwf & Hf & Hcells).
  assert (s = s') as -> by (subst s; rewrite Hrun; reflexivity).
  assert (Hrow : forall j col, hash_index mmh3_hash s' t j = Some col ->
                   Counting.occurrences t values <= Np.cell (table s') j col).
  { intros j col Ht. rewrite Hcells. apply occurrences_le_hits. exact Ht. }
  split; [exact Hrow|].
  intros m [(j & Hj & ->) _]. unfold Spec.point_cell.
  destruct (hash_index_some mmh3_hash s' t j Hwf Hj) as (col & Hidx & _).
  rewrite Hidx. apply Hrow. exact Hidx.
Qed.

Lemma sketch_cells_dominate_the_dictionary_witness :
  Examples.new None 4 2 = Ok Examples.fresh /\
  0 < N Examples.fresh /\
  let values := [Examples.bytes "ACGT"; Examples.bytes "TTTT"; Examples.bytes "ACGT"] in
  let s := snd (add_all Mmh3.hash values Examples.fresh) in
  let d := snd (dictionary.add_all (fun _ => 0) values (dictionary.__init__ 48)) in
  fst (dictionary.estimate d (Examples.bytes "ACGT")) = PyNum 2 /\
  (forall j col, hash_index Mmh3.hash s (Examples.bytes "ACGT") j = Some col ->
     2 <= Np.cell (table s) j col) /\
  (forall m, Spec.is_point_query Mmh3.hash s (Examples.bytes "ACGT") m -> 2 <= m).
Proof.
  split; [reflexivity|]. split; [simpl; lia|].
  intros values s d.
  assert (He : fst (dictionary.estimate d (Examples.bytes "ACGT")) = PyNum 2)
    by (vm_compute; reflexivity).
  split; [exact He|].
  apply (sketch_cells_dominate_the_dictionary Mmh3.hash
           Examples.getsizeof_table Examples.getsizeof_hashes 48 (fun _ => 0)
           (PyInt 4) (PyInt 2) Examples.fresh values (Examples.bytes "ACGT") 2);
    [reflexivity | simpl; lia | exact He].
Defined.

(** ** Picking the best reference sketch *)

Section Compare.

(** The scan keeps the first position of the largest value seen: [pre] is
    the part of the list already scanned. *)
Lemma argmax_from_spec (v : list Z) :
  forall (pre : list Z) (best : Z) (besti : nat),
    pre !! besti = Some best ->
    (forall p x, pre !! p = Some x -> x <= best) ->
    (forall p x, (p < besti)%nat -> pre !! p = Some x -> x < best) ->
    exists vk,
      (pre ++ v) !! Np.argmax_from best besti (length pre) v = Some vk /\
      (forall p x, (pre ++ v) !! p = Some x -> x <= vk) /\
      (forall p x, (p < Np.argmax_from best besti (length pre) v)%nat ->
                   (pre ++ v) !! p = Some x -> x < vk).
Proof.
  induction v as [|y v IH]; intros pre best besti Hbest Hmax Hfirst.
  - simpl. rewrite app_nil_r. exists best. auto.
  - simpl. replace (pre ++ y :: v) with ((pre ++ [y]) ++ v)
      by (rewrite <- app_assoc; reflexivity).
    replace (S (length pre)) with (length (pre ++ [y]))
      by (rewrite length_app; simpl; lia).
    assert (Hlt : (besti < length pre)%nat) by (eapply lookup_lt_Some; eauto).
    destruct (Z.ltb_spec best y) as [Hy|Hy].
    + apply IH.
      * apply lookup_snoc_Some. right. split; reflexivity.
      * intros p x Hx. apply lookup_snoc_Some in Hx as [[_ Hx]|[_ <-]]; [|lia].
        specialize (Hmax p x Hx). lia.
      * intros p x Hp Hx. apply lookup_snoc_Some in Hx as [[_ Hx]|[Hp' _]].
        -- specialize (Hmax p x Hx). lia.
        -- lia.
    + apply IH.
      * apply lookup_snoc_Some. left. split; [exact Hlt | exact Hbest].
      * intros p x Hx. apply lookup_snoc_Some in Hx as [[_ Hx]|[_ <-]]; [|lia].
        exact (Hmax p x Hx).
      * intros p x Hp Hx. apply lookup_snoc_Some in Hx as [[_ Hx]|[Hp' _]].
        -- exact (Hfirst p x Hp Hx).
        -- lia.
Qed.

Lemma argmax_spec (v : list Z) :
  v <> [] ->
  exists n vk,
    Np.argmax v = Ok (Z.of_nat n) /\ v !! n = Some vk /\
    (forall p x, v !! p = Some x -> x <= vk) /\
    (forall p x, (p < n)%nat -> v !! p = Some x -> x < vk).
Proof.
  destruct v as [|y v]; [congruence|]. intros _.
  destruct (argmax_from_spec v [y] y 0%nat) as (vk & Hk & Hmax & Hfirst).
  - reflexivity.
  - intros [|p] x [=]. lia.
  - intros p x Hp. lia.
  - exists (Np.argmax_from y 0 1 v), vk. simpl in *. auto.
Qed.

Lemma list_comp_ok {A B} (f : A -> outcome B) (xs : list A) (ys : list B) :
  list_comp f xs = Ok ys -> Forall2 (fun x y => f x = Ok y) xs ys.
Proof.
  revert ys. induction xs as [|x xs IH]; intros ys; simpl.
  - intros [= <-]. constructor.
  - destruct (f x) as [y|e] eqn:Hx; [|discriminate].
    destruct (list_comp f xs) as [ys'|e]; [|discriminate].
    intros [= <-]. constructor; [exact Hx | apply IH; reflexivity].
Qed.

Lemma list_comp_total {A B} (f : A -> outcome B) (xs : list A) :
  (forall x, x ∈ xs -> exists y, f x = Ok y) ->
  exists ys, list_comp f xs = Ok ys.
Proof.
  induction xs as [|x xs IH]; intros Hall; simpl; [eauto|].
  destruct (Hall x) as [y ->]; [left|].
  destruct IH as [ys ->]; [|eauto].
  intros x' Hx'. apply Hall. right. exact Hx'.
Qed.

(** A comprehension raises what one of its calls raised. *)
Lemma list_comp_raise {A B} (f : A -> outcome B) (xs : list A) (x : A) (e : exn) :
  x ∈ xs -> f x = Raise e ->
  exists e' x', list_comp f xs = Raise e' /\ x' ∈ xs /\ f x' = Raise e'.
Proof.
  induction xs as [|x0 xs IH]; intros Hin Hx; [inversion Hin|]. simpl.
  destruct (f x0) as [y0|e0] eqn:H0.
  - apply elem_of_cons in Hin as [->|Hin]; [congruence|].
    destruct (IH Hin Hx) as (e' & x' & -> & Hx' & Hfx').
    exists e', x'. split; [reflexivity|]. split; [right; exact Hx' | exact Hfx'].
  - exists e0, x0. split; [reflexivity|]. split; [left | exact H0].
Qed.

Lemma list_getitem_nil {A} (i : Z) : list_getitem (@nil A) i = Raise IndexError.
Proof.
  unfold list_getitem, norm_index.
  change (Z.of_nat (length (@nil A))) with 0. change (- 0) with 0.
  destruct (Z.leb_spec 0 i), (Z.ltb_spec i 0); simpl; try reflexivity; lia.
Qed.

(** The estimator has one way to fail. *)
Lemma dot_product_raises_value_error (a b : Np.ndarray) (e : exn) :
  classifier._dotProduct a b = Raise e -> e = ValueError.
Proof.
  unfold classifier._dotProduct.
  destruct (Np.mul a b) as [p|e'] eqn:Hmul; simpl.
  - destruct (Np.sum_axis1 p); simpl; congruence.
  - unfold Np.mul in Hmul.
    destruct (Np.broadcast_dim (Np.nrows a) (Np.nrows b)),
      (Np.broadcast_dim (Np.ncols a) (Np.ncols b)); congruence.
Qed.

End Compare.

(** X11. When the set of reference sketches is not empty, every inner
    product against the subsketch is defined and there is a label for every
    reference sketch, [compare] returns the label at the position of the
    largest inner product; of several positions with the largest value it
    takes the first. *)
Theorem compare_returns_the_label_of_the_first_maximum
    (self : classifier.t) (subsketch : sketch) :
  classifier.sketchset self <> [] ->
  (forall sk, sk ∈ classifier.sketchset self ->
     exists e, classifier._dotProduct (table subsketch) (table sk) = Ok e) ->
  (length (classifier.sketchset self) <= length (classifier.labels self))%nat ->
  exists (k : nat) (sk : sketch) (e : Z) (label : string),
    classifier.compare self subsketch = Ok label /\
    classifier.sketchset self !! k = Some sk /\
    classifier.labels self !! k = Some label /\
    classifier._dotProduct (table subsketch) (table sk) = Ok e /\
    forall i sk' e',
      classifier.sketchset self !! i = Some sk' ->
      classifier._dotProduct (table subsketch) (table sk') = Ok e' ->
      e' <= e /\ ((i < k)%nat -> e' < e).
Proof.
  intros Hne Hall Hlabels.
  destruct (list_comp_total
              (fun sketch => classifier._dotProduct (table subsketch) (table sketch))
              (classifier.sketchset self) Hall) as [ds Hds].
  pose proof (list_comp_ok _ _ _ Hds) as HF.
  pose proof (Forall2_length _ _ _ HF) as Hlen.
  assert (Hdne : ds <> []).
  { intros ->. destruct (classifier.sketchset self); [congruence | discriminate]. }
  destruct (argmax_spec ds Hdne) as (k & e & Harg & Hk & Hmax & Hfirst).
  destruct (Forall2_lookup_r _ _ _ _ _ HF Hk) as (sk & Hsk & Hdot).
  assert (Hkl : (k < length (classifier.labels self))%nat).
  { apply lookup_lt_Some in Hsk. lia. }
  destruct (lookup_lt_is_Some_2 _ _ Hkl) as [label Hlabel].
  exists k, sk, e, label. split.
  - unfold classifier.compare. rewrite Hds. simpl. rewrite Harg. simpl.
    apply list_getitem_inrange. exact Hlabel.
  - split; [exact Hsk|]. split; [exact Hlabel|]. split; [exact Hdot|].
    intros i sk' e' Hi Hdot'.
    destruct (Forall2_lookup_l _ _ _ _ _ HF Hi) as (e'' & He'' & Hdot'').
    assert (e'' = e') as -> by congruence.
    split; [exact (Hmax i e' He'') | intros Hlt; exact (Hfirst i e' Hlt He'')].
Qed.

Lemma compare_returns_the_label_of_the_first_maximum_witness :
  let self := classifier.__init__
                [Examples.fresh; Examples.two_by_four; Examples.two_by_four]
                ["empty"; "first"; "second"] in
  classifier.sketchset self <> [] /\
  (length (classifier.sketchset self) <= length (classifier.labels self))%nat /\
  exists (k : nat) (sk : sketch) (e : Z) (label : string),
    classifier.compare self Examples.two_by_four = Ok label /\
    classifier.sketchset self !! k = Some sk /\
    classifier.labels self !! k = Some label /\
    classifier._dotProduct (table Examples.two_by_four) (table sk) = Ok e /\
    forall i sk' e',
      classifier.sketchset self !! i = Some sk' ->
      classifier._dotProduct (table Examples.two_by_four) (table sk') = Ok e' ->
      e' <= e /\ ((i < k)%nat -> e' < e).
Proof.
  intros self.
  assert (Hne : classifier.sketchset self <> []) by discriminate.
  assert (Hlen : (length (classifier.sketchset self) <= length (classifier.labels self))%nat)
    by (simpl; lia).
  split; [exact Hne|]. split; [exact Hlen|].
  apply (compare_returns_the_label_of_the_first_maximum self Examples.two_by_four Hne);
    [|exact Hlen].
  intros sk Hin. simpl in Hin.
  repeat (apply elem_of_cons in Hin as [->|Hin]; [eexists; reflexivity|]).
  inversion Hin.
Defined.

Example compare_first_of_equals :
  classifier.compare
    (classifier.__init__ [Examples.fresh; Examples.two_by_four; Examples.two_by_four]
       ["empty"; "first"; "second"])
    Examples.two_by_four
  = Ok "first".
Proof. reflexivity. Qed.

(** X12. [compare] gives no label when it has nothing to choose from or
    nothing to name the choice with. With an empty set of reference sketches
    it raises [ValueError]; if the inner product against any one reference
    sketch raises, for instance because its table cannot be broadcast against
    the subsketch's, the whole call raises [ValueError]; and with every inner
    product defined but no labels it raises [IndexError]. *)
Theorem compare_raises_without_a_choice
    (self : classifier.t) (subsketch : sketch) :
  (classifier.sketchset self = [] ->
     classifier.compare self subsketch = Raise ValueError) /\
  (forall sk e,
     sk ∈ classifier.sketchset self ->
     classifier._dotProduct (table subsketch) (table sk) = Raise e ->
     classifier.compare self subsketch = Raise ValueError) /\
  (classifier.sketchset self <> [] ->
   (forall sk, sk ∈ classifier.sketchset self ->
      exists e, classifier._dotProduct (table subsketch) (table sk) = Ok e) ->
   classifier.labels self = [] ->
   classifier.compare self subsketch = Raise IndexError).
Proof.
  split; [|split].
  - intros Hempty. unfold classifier.compare. rewrite Hempty. reflexivity.
  - intros sk e Hin Hraise.
    destruct (list_comp_raise
                (fun sketch => classifier._dotProduct (table subsketch) (table sketch))
                (classifier.sketchset self) sk e Hin Hraise)
      as (e' & sk' & Hcomp & _ & Hraise').
    apply dot_product_raises_value_error in Hraise' as ->.
    unfold classifier.compare. rewrite Hcomp. reflexivity.
  - intros Hne Hall Hlabels.
    destruct (list_comp_total
                (fun sketch => classifier._dotProduct (table subsketch) (table sketch))
                (classifier.sketchset self) Hall) as [ds Hds].
    assert (Hdne : ds <> []).
    { intros ->. apply list_comp_ok in Hds. apply Forall2_length in Hds.
      destruct (classifier.sketchset self); [congruence | discriminate]. }
    destruct (argmax_spec ds Hdne) as (k & e & Harg & _).
    unfold classifier.compare. rewrite Hds. simpl. rewrite Harg. simpl.
    rewrite Hlabels. apply list_getitem_nil.
Qed.

Lemma compare_raises_without_a_choice_witness :
  let self := classifier.__init__ [Examples.two_by_four; Examples.three_by_four]
                ["two"; "three"] in
  Examples.three_by_four ∈ classifier.sketchset self /\
  classifier._dotProduct (table Examples.two_by_four) (table Examples.three_by_four)
    = Raise ValueError /\
  classifier.compare self Examples.two_by_four = Raise ValueError.
Proof.
  intros self.
  assert (Hin : Examples.three_by_four ∈ classifier.sketchset self) by (right; left).
  assert (Hr : classifier._dotProduct (table Examples.two_by_four)
                 (table Examples.three_by_four) = Raise ValueError) by reflexivity.
  split; [exact Hin|]. split; [exact Hr|].
  exact (proj1 (proj2 (compare_raises_without_a_choice self Examples.two_by_four))
           Examples.three_by_four ValueError Hin Hr).
Defined.

(** X13. The two classifiers break ties differently. For two reference
    sketches A and B with defined inner products [x] and [y] against the
    subsketch, [classifier.compare] returns the label of A unless [y] is
    strictly larger, while [BinaryClassification.classify] reports class A
    only if [x] is strictly larger: on equal estimates [compare] names A and
    [classify] prints class B. *)
Theorem compare_and_classify_differ_on_ties
    (A B subsketch : sketch) (label_A label_B : string) (x y : Z) :
  BinaryClassification._dotProduct (table subsketch) (table A) = Ok x ->
  BinaryClassification._dotProduct (table subsketch) (table B) = Ok y ->
  classifier.compare (classifier.__init__ [A; B] [label_A; label_B]) subsketch
    = Ok (if x <? y then label_B else label_A) /\
  snd (BinaryClassification.classify (BinaryClassification.__init__ A B false) subsketch)
    = [PrintValue "x=" x; PrintValue "y=" y;
       PrintLine (if x >? y then BinaryClassification.class_A
                  else BinaryClassification.class_B)] /\
  (x = y ->
     classifier.compare (classifier.__init__ [A; B] [label_A; label_B]) subsketch
       = Ok label_A /\
     PrintLine BinaryClassification.class_B
       ∈ snd (BinaryClassification.classify
                (BinaryClassification.__init__ A B false) subsketch)).
Proof.
  intros Hx Hy.
  assert (Hcmp : classifier.compare (classifier.__init__ [A; B] [label_A; label_B]) subsketch
                 = Ok (if x <? y then label_B else label_A)).
  { unfold classifier.compare. simpl.
    change (classifier._dotProduct (table subsketch) (table A))
      with (BinaryClassification._dotProduct (table subsketch) (table A)).
    change (classifier._dotProduct (table subsketch) (table B))
      with (BinaryClassification._dotProduct (table subsketch) (table B)).
    rewrite Hx, Hy. simpl. destruct (x <? y); reflexivity. }
  assert (Hcls : snd (BinaryClassification.classify
                        (BinaryClassification.__init__ A B false) subsketch)
                 = [PrintValue "x=" x; PrintValue "y=" y;
                    PrintLine (if x >? y then BinaryClassification.class_A
                               else BinaryClassification.class_B)]).
  { unfold BinaryClassification.classify. simpl. rewrite Hx, Hy. simpl.
    destruct (x >? y); reflexivity. }
  split; [exact Hcmp|]. split; [exact Hcls|].
  intros ->. rewrite Hcmp, Hcls.
  rewrite Z.ltb_irrefl. split; [reflexivity|].
  destruct (Z.gtb_spec y y) as [Hgt|_]; [lia|]. do 2 right. left.
Qed.

Lemma compare_and_classify_differ_on_ties_witness :
  BinaryClassification._dotProduct (table Examples.two_by_four) (table Examples.two_by_four)
    = Ok 8 /\
  classifier.compare
    (classifier.__init__ [Examples.two_by_four; Examples.two_by_four] ["A"; "B"])
    Examples.two_by_four
    = Ok "A" /\
  PrintLine BinaryClassification.class_B
    ∈ snd (BinaryClassification.classify
             (BinaryClassification.__init__ Examples.two_by_four Examples.two_by_four false)
             Examples.two_by_four).
Proof.
  assert (H8 : BinaryClassification._dotProduct
                 (table Examples.two_by_four) (table Examples.two_by_four) = Ok 8)
    by reflexivity.
  split; [exact H8|].
  exact (proj2 (proj2 (compare_and_classify_differ_on_ties
                         Examples.two_by_four Examples.two_by_four Examples.two_by_four
                         "A" "B" 8 8 H8 H8)) eq_refl).
Defined.

(** ** Degenerate dimensions *)

Section Degenerate.

Variable mmh3_hash : token -> Z -> Z.

Lemma add_zero_width_raises (self : sketch) (val : token) :
  N self = 0 -> 0 < M self -> hashes self <> [] ->
  add mmh3_hash val self = (Raise ZeroDivisionError, self).
Proof.
  intros HN HM Hh. unfold add, bind, get_self, range.
  rewrite seqZ_cons by lia. simpl. unfold bind at 1.
  unfold add_row, bind, get_self, lift.
  destruct (hashes self) as [|h hs] eqn:Hhs; [congruence|].
  unfold list_getitem, norm_index. simpl.
  unfold hash_fn, mod_. rewrite HN. reflexivity.
Qed.

Lemma add_all_zero_width_raises (self : sketch) (val : token) (values : list token) :
  N self = 0 -> 0 < M self -> hashes self <> [] ->
  add_all mmh3_hash (val :: values) self = (Raise ZeroDivisionError, self).
Proof.
  intros HN HM Hh. unfold add_all. simpl. unfold bind.
  rewrite (add_zero_width_raises self val HN HM Hh). reflexivity.
Qed.

End Degenerate.

(** X14. The constructor accepts a width of zero, but such a sketch cannot
    be fed. For every positive depth, [CountMinSketch(indexes=0)] returns a
    sketch; every [add] on it raises [ZeroDivisionError] and leaves the sketch
    as it was; and constructing it with a non-empty [seqlist] raises
    [ZeroDivisionError] instead of returning a sketch. *)
Theorem zero_width_sketch_cannot_be_fed
    (mmh3_hash : token -> Z -> Z) (gt : Np.ndarray -> Z) (gh : list closure -> Z)
    (d : Z) :
  0 < d ->
  exists s0,
    __init__ mmh3_hash gt gh None (PyInt 0) (PyInt d) = Ok s0 /\
    (forall val, add mmh3_hash val s0 = (Raise ZeroDivisionError, s0)) /\
    (forall val values,
       __init__ mmh3_hash gt gh (Some (val :: values)) (PyInt 0) (PyInt d)
       = Raise ZeroDivisionError).
Proof.
  intros Hd.
  destruct (zeros_spec d 0) as (a & Ha & _); [lia | lia |].
  set (s0 := Sketch 0 d (Np.arange d) a (_genhash <$> Np.arange d)
               (gt a + gh (_genhash <$> Np.arange d))).
  assert (Hh : hashes s0 <> []).
  { intros Hnil. apply (f_equal length) in Hnil. simpl in Hnil.
    rewrite hashes_length in Hnil. lia. }
  exists s0. split; [|split].
  - unfold __init__. rewrite Ha. reflexivity.
  - intros val. apply add_zero_width_raises; [reflexivity | exact Hd | exact Hh].
  - intros val values. unfold __init__. rewrite Ha. simpl. fold s0.
    rewrite (add_all_zero_width_raises mmh3_hash s0 val values);
      [reflexivity | reflexivity | exact Hd | exact Hh].
Qed.

Lemma zero_width_sketch_cannot_be_fed_witness :
  0 < 2 /\
  exists s0,
    Examples.new None 0 2 = Ok s0 /\
    (forall val, add Mmh3.hash val s0 = (Raise ZeroDivisionError, s0)) /\
    (forall val values,
       Examples.new (Some (val :: values)) 0 2 = Raise ZeroDivisionError).
Proof.
  split; [lia|].
  apply (zero_width_sketch_cannot_be_fed Mmh3.hash
           Examples.getsizeof_table Examples.getsizeof_hashes 2). lia.
Defined.

(** X15. The constructor also accepts a depth of zero. On such a sketch,
    whatever its width, every [add] returns without storing anything, and the
    inner-product estimate of its table against any table at all raises
    [ValueError]: either the shapes cannot be broadcast, or no row is left to
    take a minimum over. *)
Theorem zero_depth_sketch_has_no_estimate
    (mmh3_hash : token -> Z -> Z) (gt : Np.ndarray -> Z) (gh : list closure -> Z)
    (w : Z) :
  0 <= w ->
  exists s0,
    __init__ mmh3_hash gt gh None (PyInt w) (PyInt 0) = Ok s0 /\
    (forall val, add mmh3_hash val s0 = (Ok tt, s0)) /\
    (forall other : Np.ndarray,
       BinaryClassification._dotProduct (table s0) other = Raise ValueError /\
       BinaryClassification._dotProduct other (table s0) = Raise ValueError).
Proof.
  intros Hw.
  destruct (zeros_spec 0 w) as (a & Ha & _ & Hr & Hc & _); [lia | lia |].
  exists (Sketch w 0 (Np.arange 0) a (_genhash <$> Np.arange 0)
            (gt a + gh (_genhash <$> Np.arange 0))).
  split; [|split].
  - unfold __init__. rewrite Ha. reflexivity.
  - intros val. reflexivity.
  - intros other. simpl.
    assert (Hdot : BinaryClassification._dotProduct a other = Raise ValueError).
    { unfold BinaryClassification._dotProduct, Np.mul, Np.broadcast_dim.
      rewrite Hr. simpl.
      destruct (Np.nrows other) as [|[|n]]; simpl; try reflexivity;
        destruct ((Np.ncols a =? Np.ncols other)%nat); try reflexivity;
        destruct ((Np.ncols a =? 1)%nat); try reflexivity;
        destruct ((Np.ncols other =? 1)%nat); reflexivity. }
    split; [exact Hdot|].
    unfold BinaryClassification._dotProduct in *. rewrite (mul_comm other a). exact Hdot.
Qed.

Lemma zero_depth_sketch_has_no_estimate_witness :
  0 <= 4 /\
  exists s0,
    Examples.new None 4 0 = Ok s0 /\
    (forall val, add Mmh3.hash val s0 = (Ok tt, s0)) /\
    (forall other : Np.ndarray,
       BinaryClassification._dotProduct (table s0) other = Raise ValueError /\
       BinaryClassification._dotProduct other (table s0) = Raise ValueError).
Proof.
  split; [lia|].
  apply (zero_depth_sketch_has_no_estimate Mmh3.hash
           Examples.getsizeof_table Examples.getsizeof_hashes 4). lia.
Defined.

(** ** An empty subsketch *)

(** Against an all-zero table of the same shape every row-wise dot product
    vanishes. *)
Lemma dot_product_with_zeros (a b : Np.ndarray) (d w : nat) :
  Np.nrows a = d -> Np.nrows b = d -> Np.ncols a = w -> Np.ncols b = w ->
  (0 < d)%nat ->
  (forall i k, Np.cell a i k = 0) ->
  BinaryClassification._dotProduct a b = Ok 0.
Proof.
  intros HrA HrB HcA HcB Hd Hzero.
  assert (Hrow : forall j, Spec.row_dot a b w j = 0).
  { intros j.
    change (Spec.row_dot a b w j)
      with (Counting.sum_over (seq 0 w) (fun k => Np.cell a j k * Np.cell b j k)).
    rewrite (sum_over_ext _ _ (fun _ => 0)) by (intros k _; rewrite Hzero; lia).
    apply sum_over_zero. }
  destruct (mul_row_sums_exact a b d w HrA HrB HcA HcB) as (p & Hmul & Hsums).
  { intros j k _ _. rewrite Hzero. lia. }
  { intros j _. rewrite Hrow. pose proof pow2_53. lia. }
  destruct (np_min_rows d (Spec.row_dot a b w) Hd) as (e & Hmin & [(j & _ & He) _]).
  unfold BinaryClassification._dotProduct. rewrite Hmul. simpl. rewrite Hsums, Hmin.
  f_equal. rewrite He. apply Hrow.
Qed.

(** X16. A subsketch that was constructed with at least one row and fed
    nothing is always reported as class B: against two reference sketches of
    its own dimensions, whatever they hold, both estimates are zero, and the
    tie goes to B. *)
Theorem empty_subsketch_is_reported_as_class_B
    (mmh3_hash : token -> Z -> Z) (gt : Np.ndarray -> Z) (gh : list closure -> Z)
    (indexes hashfuncs : pyarg) (subsketch A B : sketch) :
  __init__ mmh3_hash gt gh None indexes hashfuncs = Ok subsketch ->
  0 < M subsketch ->
  Np.nrows (table A) = Np.nrows (table subsketch) ->
  Np.ncols (table A) = Np.ncols (table subsketch) ->
  Np.nrows (table B) = Np.nrows (table subsketch) ->
  Np.ncols (table B) = Np.ncols (table subsketch) ->
  BinaryClassification.classify (BinaryClassification.__init__ A B false) subsketch
  = (Ok PyNone,
     [PrintValue "x=" 0; PrintValue "y=" 0; PrintLine BinaryClassification.class_B]).
Proof.
  intros Hinit HM HrA HcA HrB HcB.
  destruct (init_fresh _ _ _ _ _ _ Hinit) as (n & m & a & _ & _ & Hn & Hm & Ha & Hs).
  destruct (zeros_spec m n Hm Hn) as (a' & Ha' & _ & Hr & _ & Hzero).
  assert (a' = a) as -> by congruence.
  assert (Hd : (0 < Np.nrows (table subsketch))%nat).
  { rewrite Hs. simpl. rewrite Hr. rewrite Hs in HM. simpl in HM. lia. }
  assert (Hz : forall i k, Np.cell (table subsketch) i k = 0)
    by (rewrite Hs; exact Hzero).
  unfold BinaryClassification.classify. simpl.
  rewrite (dot_product_with_zeros (table subsketch) (table A) _ _
             eq_refl HrA eq_refl HcA Hd Hz).
  rewrite (dot_product_with_zeros (table subsketch) (table B) _ _
             eq_refl HrB eq_refl HcB Hd Hz).
  reflexivity.
Qed.

Lemma empty_subsketch_is_reported_as_class_B_witness :
  Examples.new None 4 2 = Ok Examples.fresh /\
  0 < M Examples.fresh /\
  BinaryClassification.classify
    (BinaryClassification.__init__ Examples.two_by_four Examples.fresh false)
    Examples.fresh
  = (Ok PyNone,
     [PrintValue "x=" 0; PrintValue "y=" 0; PrintLine BinaryClassification.class_B]).
Proof.
  split; [reflexivity|]. split; [simpl; lia|].
  apply (empty_subsketch_is_reported_as_class_B Mmh3.hash
           Examples.getsizeof_table Examples.getsizeof_hashes (PyInt 4) (PyInt 2)
           Examples.fresh Examples.two_by_four Examples.fresh);
    solve [reflexivity | simpl; lia].
Defined.

Lemma dictionary_counts_exactly_witness :
  let values := [Examples.bytes "ACGT"; Examples.bytes "TTTT"; Examples.bytes "ACGT"] in
  let fresh := snd (dictionary.add_all (fun _ => 0) values (dictionary.__init__ 48)) in
  Examples.bytes "ACGT" ∈ values /\
  dictionary.estimate fresh (Examples.bytes "ACGT")
    = (PyNum (Counting.occurrences (Examples.bytes "ACGT") values), []) /\
  0 < Counting.occurrences (Examples.bytes "ACGT") values.
Proof.
  intros values fresh.
  assert (Hin : Examples.bytes "ACGT" ∈ values) by left.
  split; [exact Hin|].
  exact (proj1 (proj2 (dictionary_counts_exactly 48 (fun _ => 0) values
                         (Examples.bytes "ACGT"))) Hin).
Defined.
